(** * Shallow embedding of [src/Main.py] (archive-backed shell emulator)

    Python [str] values are modelled as lists of Unicode code points
    ([list Z]); archive entry contents as [list Byte.byte].  Every [print]
    call of the source becomes one structured output event [ev] appended to
    the output log of the state; the Russian message texts themselves are
    not reproduced, each message has its own constructor. *)

From Stdlib Require Import List ZArith String Ascii Bool Lia.
From Stdlib Require Import Sorting.Permutation Sorting.Sorted.
Import ListNotations.
Local Open Scope Z_scope.

(** ** Python strings *)

Definition pystr := list Z.

(** Literal helper: an ASCII Rocq string as a Python string. *)
Definition py (s : string) : pystr :=
  map (fun a => Z.of_N (N_of_ascii a)) (list_ascii_of_string s).

Definition slash : Z := 47.
Definition backslash : Z := 92.
Definition newline : Z := 10.
Definition hash_sign : Z := 35.

Definition str_eqb (a b : pystr) : bool :=
  if list_eq_dec Z.eq_dec a b then true else false.

(** [s.startswith(p)] *)
Fixpoint startswith (s p : pystr) : bool :=
  match p, s with
  | [], _ => true
  | c :: p', d :: s' => Z.eqb c d && startswith s' p'
  | _ :: _, [] => false
  end.

(** [s.endswith(p)] *)
Definition endswith (s p : pystr) : bool := startswith (rev s) (rev p).

(** [c in s] for a single character [c] *)
Definition contains_char (c : Z) (s : pystr) : bool := existsb (Z.eqb c) s.

(** [x in xs] for a list of strings *)
Definition str_in (x : pystr) (xs : list pystr) : bool := existsb (str_eqb x) xs.

Fixpoint dropwhile (f : Z -> bool) (s : pystr) : pystr :=
  match s with
  | [] => []
  | c :: s' => if f c then dropwhile f s' else s
  end.

(** [s.lstrip('/')] and [s.rstrip('/')] *)
Definition lstrip_slash (s : pystr) : pystr := dropwhile (Z.eqb slash) s.
Definition rstrip_slash (s : pystr) : pystr := rev (dropwhile (Z.eqb slash) (rev s)).

(** [str.isspace] for one code point (CPython's whitespace table). *)
Definition is_space (c : Z) : bool :=
  ((9 <=? c) && (c <=? 13)) || ((28 <=? c) && (c <=? 32)) || Z.eqb c 133
  || Z.eqb c 160 || Z.eqb c 5760 || ((8192 <=? c) && (c <=? 8202))
  || Z.eqb c 8232 || Z.eqb c 8233 || Z.eqb c 8239 || Z.eqb c 8287
  || Z.eqb c 12288.

(** [s.strip()] *)
Definition strip (s : pystr) : pystr :=
  rev (dropwhile is_space (rev (dropwhile is_space s))).

(** [s.split()] without argument: maximal runs of non-whitespace. *)
Fixpoint split_ws_aux (cur : pystr) (s : pystr) : list pystr :=
  match s with
  | [] => match cur with [] => [] | _ => [rev cur] end
  | c :: s' =>
      if is_space c then
        match cur with
        | [] => split_ws_aux [] s'
        | _ => rev cur :: split_ws_aux [] s'
        end
      else split_ws_aux (c :: cur) s'
  end.
Definition split_ws (s : pystr) : list pystr := split_ws_aux [] s.

(** [s.split(sep)] for a one-character separator. *)
Fixpoint split_on_aux (sep : Z) (cur : pystr) (s : pystr) : list pystr :=
  match s with
  | [] => [rev cur]
  | c :: s' =>
      if Z.eqb c sep then rev cur :: split_on_aux sep [] s'
      else split_on_aux sep (c :: cur) s'
  end.
Definition split_on (sep : Z) (s : pystr) : list pystr := split_on_aux sep [] s.

(** [s.replace('\\', '/')] *)
Definition replace_backslash (s : pystr) : pystr :=
  map (fun c => if Z.eqb c backslash then slash else c) s.

(** [s.replace('//', '/')]: left to right, non-overlapping. *)
Fixpoint replace_dslash (s : pystr) : pystr :=
  match s with
  | a :: ((b :: s') as t) =>
      if Z.eqb a slash && Z.eqb b slash then slash :: replace_dslash s'
      else a :: replace_dslash t
  | _ => s
  end.

(** *** Unicode data

    The tables below are CPython's Unicode database (Unicode 14.0.0, as
    shipped with CPython 3.11.2), in the form the string
    methods used by the program consult it. *)

(** The code points [z] such that [z .. z + 9] are the decimal digits
    0 .. 9 of one script ([Py_UNICODE_TODECIMAL]). *)
Definition decimal_zeros : list Z :=
[
   48; 1632; 1776; 1984; 2406; 2534; 2662; 2790; 2918; 3046;
   3174; 3302; 3430; 3558; 3664; 3792; 3872; 4160; 4240; 6112;
   6160; 6470; 6608; 6784; 6800; 6992; 7088; 7232; 7248; 42528;
   43216; 43264; 43472; 43504; 43600; 44016; 65296; 66720; 68912; 69734;
   69872; 69942; 70096; 70384; 70736; 70864; 71248; 71360; 71472; 71904;
   72016; 72784; 73040; 73120; 92768; 92864; 93008; 120782; 120792; 120802;
   120812; 120822; 123200; 123632; 125264; 130032].

(** Simple lowercase mappings ([_PyUnicode_ToLowerFull] for every code
    point whose full mapping is one code point, except U+03A3 whose mapping
    depends on the context): [(lo, hi, step, delta)] maps [c] to
    [c + delta] when [lo <= c <= hi] and [step] divides [c - lo]; the first
    matching run applies. *)
Definition lower_runs : list (Z * Z * Z * Z) :=
[
   (65, 90, 1, 32); (192, 214, 1, 32); (216, 222, 1, 32); (256, 302, 2, 1);
   (306, 310, 2, 1); (313, 327, 2, 1); (330, 374, 2, 1); (376, 376, 1, -121);
   (377, 381, 2, 1); (385, 385, 1, 210); (386, 388, 2, 1); (390, 390, 1, 206);
   (391, 391, 1, 1); (393, 394, 1, 205); (395, 395, 1, 1); (398, 398, 1, 79);
   (399, 399, 1, 202); (400, 400, 1, 203); (401, 401, 1, 1); (403, 403, 1, 205);
   (404, 404, 1, 207); (406, 406, 1, 211); (407, 407, 1, 209); (408, 408, 1, 1);
   (412, 412, 1, 211); (413, 413, 1, 213); (415, 415, 1, 214); (416, 420, 2, 1);
   (422, 422, 1, 218); (423, 423, 1, 1); (425, 425, 1, 218); (428, 428, 1, 1);
   (430, 430, 1, 218); (431, 431, 1, 1); (433, 434, 1, 217); (435, 437, 2, 1);
   (439, 439, 1, 219); (440, 440, 1, 1); (444, 444, 1, 1); (452, 452, 1, 2);
   (453, 453, 1, 1); (455, 455, 1, 2); (456, 456, 1, 1); (458, 458, 1, 2);
   (459, 475, 2, 1); (478, 494, 2, 1); (497, 497, 1, 2); (498, 500, 2, 1);
   (502, 502, 1, -97); (503, 503, 1, -56); (504, 542, 2, 1); (544, 544, 1, -130);
   (546, 562, 2, 1); (570, 570, 1, 10795); (571, 571, 1, 1); (573, 573, 1, -163);
   (574, 574, 1, 10792); (577, 577, 1, 1); (579, 579, 1, -195); (580, 580, 1, 69);
   (581, 581, 1, 71); (582, 590, 2, 1); (880, 882, 2, 1); (886, 886, 1, 1);
   (895, 895, 1, 116); (902, 902, 1, 38); (904, 906, 1, 37); (908, 908, 1, 64);
   (910, 911, 1, 63); (913, 929, 1, 32); (932, 939, 1, 32); (975, 975, 1, 8);
   (984, 1006, 2, 1); (1012, 1012, 1, -60); (1015, 1015, 1, 1); (1017, 1017, 1, -7);
   (1018, 1018, 1, 1); (1021, 1023, 1, -130); (1024, 1039, 1, 80); (1040, 1071, 1, 32);
   (1120, 1152, 2, 1); (1162, 1214, 2, 1); (1216, 1216, 1, 15); (1217, 1229, 2, 1);
   (1232, 1326, 2, 1); (1329, 1366, 1, 48); (4256, 4293, 1, 7264); (4295, 4295, 1, 7264);
   (4301, 4301, 1, 7264); (5024, 5103, 1, 38864); (5104, 5109, 1, 8); (7312, 7354, 1, -3008);
   (7357, 7359, 1, -3008); (7680, 7828, 2, 1); (7838, 7838, 1, -7615); (7840, 7934, 2, 1);
   (7944, 7951, 1, -8); (7960, 7965, 1, -8); (7976, 7983, 1, -8); (7992, 7999, 1, -8);
   (8008, 8013, 1, -8); (8025, 8031, 2, -8); (8040, 8047, 1, -8); (8072, 8079, 1, -8);
   (8088, 8095, 1, -8); (8104, 8111, 1, -8); (8120, 8121, 1, -8); (8122, 8123, 1, -74);
   (8124, 8124, 1, -9); (8136, 8139, 1, -86); (8140, 8140, 1, -9); (8152, 8153, 1, -8);
   (8154, 8155, 1, -100); (8168, 8169, 1, -8); (8170, 8171, 1, -112); (8172, 8172, 1, -7);
   (8184, 8185, 1, -128); (8186, 8187, 1, -126); (8188, 8188, 1, -9); (8486, 8486, 1, -7517);
   (8490, 8490, 1, -8383); (8491, 8491, 1, -8262); (8498, 8498, 1, 28); (8544, 8559, 1, 16);
   (8579, 8579, 1, 1); (9398, 9423, 1, 26); (11264, 11311, 1, 48); (11360, 11360, 1, 1);
   (11362, 11362, 1, -10743); (11363, 11363, 1, -3814); (11364, 11364, 1, -10727); (11367, 11371, 2, 1);
   (11373, 11373, 1, -10780); (11374, 11374, 1, -10749); (11375, 11375, 1, -10783); (11376, 11376, 1, -10782);
   (11378, 11378, 1, 1); (11381, 11381, 1, 1); (11390, 11391, 1, -10815); (11392, 11490, 2, 1);
   (11499, 11501, 2, 1); (11506, 11506, 1, 1); (42560, 42604, 2, 1); (42624, 42650, 2, 1);
   (42786, 42798, 2, 1); (42802, 42862, 2, 1); (42873, 42875, 2, 1); (42877, 42877, 1, -35332);
   (42878, 42886, 2, 1); (42891, 42891, 1, 1); (42893, 42893, 1, -42280); (42896, 42898, 2, 1);
   (42902, 42920, 2, 1); (42922, 42922, 1, -42308); (42923, 42923, 1, -42319); (42924, 42924, 1, -42315);
   (42925, 42925, 1, -42305); (42926, 42926, 1, -42308); (42928, 42928, 1, -42258); (42929, 42929, 1, -42282);
   (42930, 42930, 1, -42261); (42931, 42931, 1, 928); (42932, 42946, 2, 1); (42948, 42948, 1, -48);
   (42949, 42949, 1, -42307); (42950, 42950, 1, -35384); (42951, 42953, 2, 1); (42960, 42960, 1, 1);
   (42966, 42968, 2, 1); (42997, 42997, 1, 1); (65313, 65338, 1, 32); (66560, 66599, 1, 40);
   (66736, 66771, 1, 40); (66928, 66938, 1, 39); (66940, 66954, 1, 39); (66956, 66962, 1, 39);
   (66964, 66965, 1, 39); (68736, 68786, 1, 64); (71840, 71871, 1, 32); (93760, 93791, 1, 32);
   (125184, 125217, 1, 34)].

(** [_PyUnicode_IsCaseIgnorable], as ranges. *)
Definition case_ignorable_ranges : list (Z * Z) :=
[
   (39, 39); (46, 46); (58, 58); (94, 94); (96, 96); (168, 168);
   (173, 173); (175, 175); (180, 180); (183, 184); (688, 879); (884, 885);
   (890, 890); (900, 901); (903, 903); (1155, 1161); (1369, 1369); (1375, 1375);
   (1425, 1469); (1471, 1471); (1473, 1474); (1476, 1477); (1479, 1479); (1524, 1524);
   (1536, 1541); (1552, 1562); (1564, 1564); (1600, 1600); (1611, 1631); (1648, 1648);
   (1750, 1757); (1759, 1768); (1770, 1773); (1807, 1807); (1809, 1809); (1840, 1866);
   (1958, 1968); (2027, 2037); (2042, 2042); (2045, 2045); (2070, 2093); (2137, 2139);
   (2184, 2184); (2192, 2193); (2200, 2207); (2249, 2306); (2362, 2362); (2364, 2364);
   (2369, 2376); (2381, 2381); (2385, 2391); (2402, 2403); (2417, 2417); (2433, 2433);
   (2492, 2492); (2497, 2500); (2509, 2509); (2530, 2531); (2558, 2558); (2561, 2562);
   (2620, 2620); (2625, 2626); (2631, 2632); (2635, 2637); (2641, 2641); (2672, 2673);
   (2677, 2677); (2689, 2690); (2748, 2748); (2753, 2757); (2759, 2760); (2765, 2765);
   (2786, 2787); (2810, 2815); (2817, 2817); (2876, 2876); (2879, 2879); (2881, 2884);
   (2893, 2893); (2901, 2902); (2914, 2915); (2946, 2946); (3008, 3008); (3021, 3021);
   (3072, 3072); (3076, 3076); (3132, 3132); (3134, 3136); (3142, 3144); (3146, 3149);
   (3157, 3158); (3170, 3171); (3201, 3201); (3260, 3260); (3263, 3263); (3270, 3270);
   (3276, 3277); (3298, 3299); (3328, 3329); (3387, 3388); (3393, 3396); (3405, 3405);
   (3426, 3427); (3457, 3457); (3530, 3530); (3538, 3540); (3542, 3542); (3633, 3633);
   (3636, 3642); (3654, 3662); (3761, 3761); (3764, 3772); (3782, 3782); (3784, 3789);
   (3864, 3865); (3893, 3893); (3895, 3895); (3897, 3897); (3953, 3966); (3968, 3972);
   (3974, 3975); (3981, 3991); (3993, 4028); (4038, 4038); (4141, 4144); (4146, 4151);
   (4153, 4154); (4157, 4158); (4184, 4185); (4190, 4192); (4209, 4212); (4226, 4226);
   (4229, 4230); (4237, 4237); (4253, 4253); (4348, 4348); (4957, 4959); (5906, 5908);
   (5938, 5939); (5970, 5971); (6002, 6003); (6068, 6069); (6071, 6077); (6086, 6086);
   (6089, 6099); (6103, 6103); (6109, 6109); (6155, 6159); (6211, 6211); (6277, 6278);
   (6313, 6313); (6432, 6434); (6439, 6440); (6450, 6450); (6457, 6459); (6679, 6680);
   (6683, 6683); (6742, 6742); (6744, 6750); (6752, 6752); (6754, 6754); (6757, 6764);
   (6771, 6780); (6783, 6783); (6823, 6823); (6832, 6862); (6912, 6915); (6964, 6964);
   (6966, 6970); (6972, 6972); (6978, 6978); (7019, 7027); (7040, 7041); (7074, 7077);
   (7080, 7081); (7083, 7085); (7142, 7142); (7144, 7145); (7149, 7149); (7151, 7153);
   (7212, 7219); (7222, 7223); (7288, 7293); (7376, 7378); (7380, 7392); (7394, 7400);
   (7405, 7405); (7412, 7412); (7416, 7417); (7468, 7530); (7544, 7544); (7579, 7679);
   (8125, 8125); (8127, 8129); (8141, 8143); (8157, 8159); (8173, 8175); (8189, 8190);
   (8203, 8207); (8216, 8217); (8228, 8228); (8231, 8231); (8234, 8238); (8288, 8292);
   (8294, 8303); (8305, 8305); (8319, 8319); (8336, 8348); (8400, 8432); (11388, 11389);
   (11503, 11505); (11631, 11631); (11647, 11647); (11744, 11775); (11823, 11823); (12293, 12293);
   (12330, 12333); (12337, 12341); (12347, 12347); (12441, 12446); (12540, 12542); (40981, 40981);
   (42232, 42237); (42508, 42508); (42607, 42610); (42612, 42621); (42623, 42623); (42652, 42655);
   (42736, 42737); (42752, 42785); (42864, 42864); (42888, 42890); (42994, 42996); (43000, 43001);
   (43010, 43010); (43014, 43014); (43019, 43019); (43045, 43046); (43052, 43052); (43204, 43205);
   (43232, 43249); (43263, 43263); (43302, 43309); (43335, 43345); (43392, 43394); (43443, 43443);
   (43446, 43449); (43452, 43453); (43471, 43471); (43493, 43494); (43561, 43566); (43569, 43570);
   (43573, 43574); (43587, 43587); (43596, 43596); (43632, 43632); (43644, 43644); (43696, 43696);
   (43698, 43700); (43703, 43704); (43710, 43711); (43713, 43713); (43741, 43741); (43756, 43757);
   (43763, 43764); (43766, 43766); (43867, 43871); (43881, 43883); (44005, 44005); (44008, 44008);
   (44013, 44013); (64286, 64286); (64434, 64450); (65024, 65039); (65043, 65043); (65056, 65071);
   (65106, 65106); (65109, 65109); (65279, 65279); (65287, 65287); (65294, 65294); (65306, 65306);
   (65342, 65342); (65344, 65344); (65392, 65392); (65438, 65439); (65507, 65507); (65529, 65531);
   (66045, 66045); (66272, 66272); (66422, 66426); (67456, 67461); (67463, 67504); (67506, 67514);
   (68097, 68099); (68101, 68102); (68108, 68111); (68152, 68154); (68159, 68159); (68325, 68326);
   (68900, 68903); (69291, 69292); (69446, 69456); (69506, 69509); (69633, 69633); (69688, 69702);
   (69744, 69744); (69747, 69748); (69759, 69761); (69811, 69814); (69817, 69818); (69821, 69821);
   (69826, 69826); (69837, 69837); (69888, 69890); (69927, 69931); (69933, 69940); (70003, 70003);
   (70016, 70017); (70070, 70078); (70089, 70092); (70095, 70095); (70191, 70193); (70196, 70196);
   (70198, 70199); (70206, 70206); (70367, 70367); (70371, 70378); (70400, 70401); (70459, 70460);
   (70464, 70464); (70502, 70508); (70512, 70516); (70712, 70719); (70722, 70724); (70726, 70726);
   (70750, 70750); (70835, 70840); (70842, 70842); (70847, 70848); (70850, 70851); (71090, 71093);
   (71100, 71101); (71103, 71104); (71132, 71133); (71219, 71226); (71229, 71229); (71231, 71232);
   (71339, 71339); (71341, 71341); (71344, 71349); (71351, 71351); (71453, 71455); (71458, 71461);
   (71463, 71467); (71727, 71735); (71737, 71738); (71995, 71996); (71998, 71998); (72003, 72003);
   (72148, 72151); (72154, 72155); (72160, 72160); (72193, 72202); (72243, 72248); (72251, 72254);
   (72263, 72263); (72273, 72278); (72281, 72283); (72330, 72342); (72344, 72345); (72752, 72758);
   (72760, 72765); (72767, 72767); (72850, 72871); (72874, 72880); (72882, 72883); (72885, 72886);
   (73009, 73014); (73018, 73018); (73020, 73021); (73023, 73029); (73031, 73031); (73104, 73105);
   (73109, 73109); (73111, 73111); (73459, 73460); (78896, 78904); (92912, 92916); (92976, 92982);
   (92992, 92995); (94031, 94031); (94095, 94111); (94176, 94177); (94179, 94180); (110576, 110579);
   (110581, 110587); (110589, 110590); (113821, 113822); (113824, 113827); (118528, 118573); (118576, 118598);
   (119143, 119145); (119155, 119170); (119173, 119179); (119210, 119213); (119362, 119364); (121344, 121398);
   (121403, 121452); (121461, 121461); (121476, 121476); (121499, 121503); (121505, 121519); (122880, 122886);
   (122888, 122904); (122907, 122913); (122915, 122916); (122918, 122922); (123184, 123197); (123566, 123566);
   (123628, 123631); (125136, 125142); (125252, 125259); (127995, 127999); (917505, 917505); (917536, 917631);
   (917760, 917999)].

(** [_PyUnicode_IsCased] on the code points that are not case-ignorable
    (the only ones the final-sigma rule consults), as ranges. *)
Definition cased_ranges : list (Z * Z) :=
[
   (65, 90); (97, 122); (170, 170); (181, 181); (186, 186); (192, 214);
   (216, 246); (248, 442); (444, 447); (452, 659); (661, 687); (880, 883);
   (886, 887); (891, 893); (895, 895); (902, 902); (904, 906); (908, 908);
   (910, 929); (931, 1013); (1015, 1153); (1162, 1327); (1329, 1366); (1376, 1416);
   (4256, 4293); (4295, 4295); (4301, 4301); (4304, 4346); (4349, 4351); (5024, 5109);
   (5112, 5117); (7296, 7304); (7312, 7354); (7357, 7359); (7424, 7467); (7531, 7543);
   (7545, 7578); (7680, 7957); (7960, 7965); (7968, 8005); (8008, 8013); (8016, 8023);
   (8025, 8025); (8027, 8027); (8029, 8029); (8031, 8061); (8064, 8116); (8118, 8124);
   (8126, 8126); (8130, 8132); (8134, 8140); (8144, 8147); (8150, 8155); (8160, 8172);
   (8178, 8180); (8182, 8188); (8450, 8450); (8455, 8455); (8458, 8467); (8469, 8469);
   (8473, 8477); (8484, 8484); (8486, 8486); (8488, 8488); (8490, 8493); (8495, 8500);
   (8505, 8505); (8508, 8511); (8517, 8521); (8526, 8526); (8544, 8575); (8579, 8580);
   (9398, 9449); (11264, 11387); (11390, 11492); (11499, 11502); (11506, 11507); (11520, 11557);
   (11559, 11559); (11565, 11565); (42560, 42605); (42624, 42651); (42786, 42863); (42865, 42887);
   (42891, 42894); (42896, 42954); (42960, 42961); (42963, 42963); (42965, 42969); (42997, 42998);
   (43002, 43002); (43824, 43866); (43872, 43880); (43888, 43967); (64256, 64262); (64275, 64279);
   (65313, 65338); (65345, 65370); (66560, 66639); (66736, 66771); (66776, 66811); (66928, 66938);
   (66940, 66954); (66956, 66962); (66964, 66965); (66967, 66977); (66979, 66993); (66995, 67001);
   (67003, 67004); (68736, 68786); (68800, 68850); (71840, 71903); (93760, 93823); (119808, 119892);
   (119894, 119964); (119966, 119967); (119970, 119970); (119973, 119974); (119977, 119980); (119982, 119993);
   (119995, 119995); (119997, 120003); (120005, 120069); (120071, 120074); (120077, 120084); (120086, 120092);
   (120094, 120121); (120123, 120126); (120128, 120132); (120134, 120134); (120138, 120144); (120146, 120485);
   (120488, 120512); (120514, 120538); (120540, 120570); (120572, 120596); (120598, 120628); (120630, 120654);
   (120656, 120686); (120688, 120712); (120714, 120744); (120746, 120770); (120772, 120779); (122624, 122633);
   (122635, 122654); (125184, 125251); (127280, 127305); (127312, 127337); (127344, 127369)].

Definition in_ranges (rs : list (Z * Z)) (c : Z) : bool :=
  existsb (fun r => (fst r <=? c) && (c <=? snd r)) rs.

Fixpoint lower_lookup (runs : list (Z * Z * Z * Z)) (c : Z) : Z :=
  match runs with
  | [] => c
  | (lo, hi, step, delta) :: runs' =>
      if (lo <=? c) && (c <=? hi) && Z.eqb ((c - lo) mod step) 0 then c + delta
      else lower_lookup runs' c
  end.

(** The first code point that is not case-ignorable. *)
Fixpoint first_not_ignorable (s : pystr) : option Z :=
  match s with
  | [] => None
  | c :: s' => if in_ranges case_ignorable_ranges c then first_not_ignorable s' else Some c
  end.

(** [handle_capital_sigma]: U+03A3 lowers to final sigma U+03C2 when a
    cased letter precedes it (case-ignorable code points skipped) and none
    follows it; [before] is the text before it, reversed. *)
Definition final_sigma (before after : pystr) : bool :=
  match first_not_ignorable before with
  | Some c =>
      in_ranges cased_ranges c
      && match first_not_ignorable after with
         | None => true
         | Some d => negb (in_ranges cased_ranges d)
         end
  | None => false
  end.

Fixpoint lower_aux (before s : pystr) : pystr :=
  match s with
  | [] => []
  | c :: s' =>
      (if Z.eqb c 931 then [if final_sigma before s' then 962 else 963]
       else if Z.eqb c 304 then [105; 775]
       else [lower_lookup lower_runs c])
      ++ lower_aux (c :: before) s'
  end.

(** [s.lower()] *)
Definition lower (s : pystr) : pystr := lower_aux [] s.

(** [posixpath.join(a, b)] with two arguments. *)
Definition path_join (a b : pystr) : pystr :=
  if startswith b [slash] then b
  else if (match a with [] => true | _ => false end) || endswith a [slash]
  then a ++ b
  else a ++ [slash] ++ b.

(** [posixpath.dirname(p)]:
    [i = p.rfind('/') + 1; head = p[:i];
     if head and head != '/' * len(head): head = head.rstrip('/')] *)
Definition path_dirname (p : pystr) : pystr :=
  let head := rev (dropwhile (fun c => negb (Z.eqb c slash)) (rev p)) in
  if (match head with [] => false | _ => true end)
     && negb (forallb (Z.eqb slash) head)
  then rstrip_slash head
  else head.

(** [x or '/'] for a string [x] *)
Definition or_root (x : pystr) : pystr :=
  match x with [] => [slash] | _ => x end.

(** [int(tok)]: [PyLong_FromUnicodeObject] turns every decimal digit into
    its ASCII digit and every non-ASCII space into [' '], and
    [PyLong_FromString] then skips ASCII whitespace ([Py_ISSPACE]: 9 .. 13
    and 32) around an optional sign and the digits, single underscores
    allowed between digits, and refuses more than 4300 digits (the default
    [sys.get_int_max_str_digits()]).  [None] is [ValueError]. *)
Fixpoint dec_digit (zs : list Z) (c : Z) : option Z :=
  match zs with
  | [] => None
  | z :: zs' => if (z <=? c) && (c <=? z + 9) then Some (c - z) else dec_digit zs' c
  end.

Definition digit_val (c : Z) : option Z := dec_digit decimal_zeros c.

(** The characters [int()] skips around the number. *)
Definition int_space (c : Z) : bool :=
  is_space c && negb ((28 <=? c) && (c <=? 31)).

Definition int_strip (s : pystr) : pystr :=
  rev (dropwhile int_space (rev (dropwhile int_space s))).

Fixpoint parse_digits (acc : Z) (prev_digit : bool) (s : pystr) : option Z :=
  match s with
  | [] => if prev_digit then Some acc else None
  | c :: s' =>
      if Z.eqb c 95 then
        (if prev_digit then
           match s' with
           | d :: _ => if digit_val d then parse_digits acc false s' else None
           | [] => None
           end
         else None)
      else match digit_val c with
           | Some d => parse_digits (acc * 10 + d) true s'
           | None => None
           end
  end.

(** The digits counted against the limit: the characters other than ['_']. *)
Definition digit_count (s : pystr) : Z :=
  Z.of_nat (List.length (filter (fun c => negb (Z.eqb c 95)) s)).

Definition parse_limited (s : pystr) : option Z :=
  if 4300 <? digit_count s then None else parse_digits 0 false s.

Definition py_int (tok : pystr) : option Z :=
  match int_strip tok with
  | c :: s' =>
      if Z.eqb c 43 then parse_limited s'
      else if Z.eqb c 45 then option_map Z.opp (parse_limited s')
      else parse_limited (c :: s')
  | [] => None
  end.

(** [sorted(list_of_str)]: code-point lexicographic order. *)
Fixpoint str_leb (a b : pystr) : bool :=
  match a, b with
  | [], _ => true
  | _ :: _, [] => false
  | x :: a', y :: b' => (x <? y) || (Z.eqb x y && str_leb a' b')
  end.


Fixpoint insert_sorted (x : pystr) (l : list pystr) : list pystr :=
  match l with
  | [] => [x]
  | y :: l' => if str_leb x y then x :: l else y :: insert_sorted x l'
  end.

Fixpoint py_sorted (l : list pystr) : list pystr :=
  match l with
  | [] => []
  | x :: l' => insert_sorted x (py_sorted l')
  end.

(** [bytes.decode('utf-8')] (strict): [None] is [UnicodeDecodeError]. *)
Definition cont (b : Z) : bool := (128 <=? b) && (b <=? 191).
Definition in_rng (lo hi b : Z) : bool := (lo <=? b) && (b <=? hi).

Fixpoint utf8_decode_z (bs : list Z) : option pystr :=
  match bs with
  | [] => Some []
  | b0 :: r =>
      if b0 <? 128 then option_map (cons b0) (utf8_decode_z r)
      else if in_rng 194 223 b0 then
        match r with
        | b1 :: r1 =>
            if cont b1 then
              option_map (cons ((b0 - 192) * 64 + (b1 - 128))) (utf8_decode_z r1)
            else None
        | [] => None
        end
      else if in_rng 224 239 b0 then
        match r with
        | b1 :: b2 :: r2 =>
            let lo := if Z.eqb b0 224 then 160 else 128 in
            let hi := if Z.eqb b0 237 then 159 else 191 in
            if in_rng lo hi b1 && cont b2 then
              option_map
                (cons ((b0 - 224) * 4096 + (b1 - 128) * 64 + (b2 - 128)))
                (utf8_decode_z r2)
            else None
        | _ => None
        end
      else if in_rng 240 244 b0 then
        match r with
        | b1 :: b2 :: b3 :: r3 =>
            let lo := if Z.eqb b0 240 then 144 else 128 in
            let hi := if Z.eqb b0 244 then 143 else 191 in
            if in_rng lo hi b1 && cont b2 && cont b3 then
              option_map
                (cons ((b0 - 240) * 262144 + (b1 - 128) * 4096
                       + (b2 - 128) * 64 + (b3 - 128)))
                (utf8_decode_z r3)
            else None
        | _ => None
        end
      else None
  end.

Definition utf8_decode (bs : list Byte.byte) : option pystr :=
  utf8_decode_z (map (fun b => Z.of_N (Byte.to_N b)) bs).

(** ** Archive entries and the emulator state *)

(** A [zipfile] entry: its stored name (never rooted) and its bytes. *)
Record entry := mkEntry { ename : pystr; edata : list Byte.byte }.

(** [archive.namelist()] *)
Definition namelist (ents : list entry) : list pystr := map ename ents.

(** Python exceptions that reach the modelled code. [SystemExit] is a
    [BaseException]; everything else derives from [Exception]. *)
Inductive exn :=
| SystemExit (code : Z)
| PyException (name : pystr).

Definition is_Exception (e : exn) : bool :=
  match e with SystemExit _ => false | PyException _ => true end.

(** The [vfs-info] record ([get_vfs_info]); the fingerprint is Python's
    per-process [hash], an input of the model. *)
Record vfs_info := mkInfo {
  i_name : pystr; i_path : pystr; i_hash : pystr; i_files : Z; i_dirs : Z;
  i_total : Z; i_size : Z; i_modified : pystr }.

(** One event per [print] (or [input] prompt) of the source. *)
Inductive ev :=
| EvVfsNotLoaded                       (* "VFS не загружена" *)
| EvDirNotFound (d : pystr)            (* change_directory failure *)
| EvBinaryFile (f : pystr)             (* UnicodeDecodeError in read_file *)
| EvDirEmpty                           (* ls: "Директория пуста" *)
| EvLsDir (item : pystr)               (* blue, suffixed by '/' *)
| EvLsScript (item : pystr)            (* green *)
| EvLsText (item : pystr)              (* yellow *)
| EvLsPlain (item : pystr)
| EvWhoami (user : pystr)
| EvTailUsage | EvTailExample
| EvCountNotPositive | EvCountNotNumber
| EvFileUnavailable (f : pystr)        (* "не найден или недоступен" *)
| EvTailHeader (n : Z) (f : pystr)
| EvNumLine (i : Z) (line : pystr)     (* f"{i:4d}: {line}" *)
| EvCatUsage | EvCatExample
| EvCatHeader (f : pystr)
| EvInfoNotLoaded | EvInfoError
| EvInfo (r : vfs_info)                (* the "=== Информация о VFS ===" block *)
| EvHistEmpty | EvHistHeader
| EvHistLine (i : Z) (cmd : pystr)     (* f"{i:3d}: {cmd}" *)
| EvPwd (d : pystr)
| EvHelpHeader | EvHelpRow (usage : pystr)
| EvClear                              (* os.system('clear') *)
| EvGoodbye                            (* "Выход из эмулятора..." *)
| EvCmdNotFound (cmd : pystr)
| EvCmdError (e : exn)
| EvScriptNotFound (p : pystr) | EvScriptStart (p : pystr) | EvRule
| EvEchoBlank (n : Z) | EvEchoComment (n : Z) (text : pystr)
| EvEchoCmd (n : Z) (line : pystr)
| EvNewline | EvScriptDone | EvScriptError (e : exn)
| EvOfferTestVfs                       (* input("VFS не загружена. Создать тестовую VFS? (y/n): ") *)
| EvTestVfsWritten (p : pystr)         (* "Создана тестовая VFS: ..." *)
| EvVfsLoaded (name : pystr)           (* "VFS '...' успешно загружена" *)
| EvArchiveEmpty                       (* "Внимание: архив пуст" *)
| EvBadZip (p : pystr) | EvLoadError (e : exn)
| EvTestVfsError (e : exn)             (* "Ошибка создания тестовой VFS: ..." *)
| EvTestVfsReady | EvTestVfsFailed
| EvScriptOk | EvScriptFailed | EvBanner
| EvPrompt (name : pystr) (cur : pystr)
| EvEof.

(** Fields of [VirtualFileSystem] and [ShellEmulator] that change, plus the
    output log. [archive = None] is the unloaded file system. *)
Record sh := mkSh {
  archive : option (list entry);
  current_dir : pystr;
  history : list pystr;
  out : list ev }.

Definition set_cur (d : pystr) (s : sh) : sh :=
  mkSh (archive s) d (history s) (out s).
Definition push_history (c : pystr) (s : sh) : sh :=
  mkSh (archive s) (current_dir s) (history s ++ [c]) (out s).
Definition emit (e : ev) (s : sh) : sh :=
  mkSh (archive s) (current_dir s) (history s) (out s ++ [e]).

(** Fixed per-session inputs: the user name captured at start, the VFS
    display name, and the [os.stat] data of the archive file ([None] when
    [os.stat] raises). *)
Record stat_data := mkStat {
  s_abspath : pystr; s_hash : pystr; s_size : Z; s_modified : pystr }.
Record env := mkEnv {
  env_user : pystr; env_vfs_name : pystr; env_stat : option stat_data }.

(** ** A state and exception monad *)

Inductive res (A : Type) := Ret (a : A) | Raise (e : exn).
Arguments Ret {A} a.
Arguments Raise {A} e.

Definition M (A : Type) := sh -> res A * sh.

Definition ret {A} (a : A) : M A := fun s => (Ret a, s).
Definition bind {A B} (m : M A) (k : A -> M B) : M B :=
  fun s => match m s with
           | (Ret a, s') => k a s'
           | (Raise e, s') => (Raise e, s')
           end.
Definition get : M sh := fun s => (Ret s, s).
Definition modify (f : sh -> sh) : M unit := fun s => (Ret tt, f s).
Definition print (e : ev) : M unit := modify (emit e).
Definition raise {A} (e : exn) : M A := fun s => (Raise e, s).

(** [try: m except Exception as e: h(e)] *)
Definition try_except {A} (m : M A) (h : exn -> M A) : M A :=
  fun s => match m s with
           | (Raise e, s') => if is_Exception e then h e s' else (Raise e, s')
           | r => r
           end.

Declare Scope monad_scope.
Notation "x <- m ;; k" := (bind m (fun x => k))
  (at level 61, m at next level, right associativity) : monad_scope.
Notation "m ;; k" := (bind m (fun _ => k))
  (at level 61, right associativity) : monad_scope.
Local Open Scope monad_scope.

Fixpoint mapM_ {A} (f : A -> M unit) (l : list A) : M unit :=
  match l with
  | [] => ret tt
  | x :: l' => f x ;; mapM_ f l'
  end.

(** [enumerate(l, k)] *)
Fixpoint enumerate {A} (k : Z) (l : list A) : list (Z * A) :=
  match l with
  | [] => []
  | x :: l' => (k, x) :: enumerate (k + 1) l'
  end.

(** ** VirtualFileSystem *)

(** One iteration of the loop of [list_files] over [namelist()]:
    the accumulator is [(file_list, dir_set)]; [dir_set] is kept in
    insertion order ([sorted] erases the order of a Python set). *)
Definition lf_step (target : pystr) (acc : list pystr * list pystr)
    (name : pystr) : list pystr * list pystr :=
  let '(file_list, dir_set) := acc in
  if startswith name target && negb (str_eqb name target) then
    let relative_path := skipn (List.length target) name in
    if negb (contains_char slash relative_path) then
      (file_list ++ [relative_path], dir_set)
    else
      let first_dir := hd [] (split_on slash relative_path) in
      (file_list, if str_in first_dir dir_set then dir_set
                  else dir_set ++ [first_dir])
  else acc.

(** [list_files(directory)]; [None] in the source's sense of a missing
    argument is [None], [Some d] the argument. *)
Definition list_files (st : sh) (directory : option pystr)
    : option (list pystr) :=
  match archive st with
  | None => None
  | Some ents =>
      let target0 :=
        match directory with
        | Some ((_ :: _) as d) => d
        | _ => current_dir st
        end in
      let target1 := rstrip_slash target0 ++ [slash] in
      let target_dir := if str_eqb target1 [slash; slash] then [slash] else target1 in
      let '(file_list, dir_set) := fold_left (lf_step target_dir) (namelist ents) ([], []) in
      Some (py_sorted (dir_set ++ file_list))
  end.

(** [test_dir] of [change_directory] for a target other than ['/'] and ['..']. *)
Definition cd_test_dir (cur new_dir : pystr) : pystr :=
  if startswith new_dir [slash] then rstrip_slash new_dir ++ [slash]
  else replace_backslash (path_join (rstrip_slash cur) new_dir) ++ [slash].

(** The test of the [for name in namelist()] loop of [change_directory]. *)
Definition cd_match (test_dir name : pystr) : bool :=
  startswith name test_dir || str_eqb name (rstrip_slash test_dir).

Definition change_directory (new_dir : pystr) : M bool :=
  st <- get ;;
  match archive st with
  | None => print EvVfsNotLoaded ;; ret false
  | Some ents =>
      if str_eqb new_dir [slash] then modify (set_cur [slash]) ;; ret true
      else if str_eqb new_dir (py "..") then
        (if negb (str_eqb (current_dir st) [slash])
         then modify (set_cur (or_root (path_dirname (rstrip_slash (current_dir st)))))
         else ret tt) ;;
        ret true
      else
        let test_dir := cd_test_dir (current_dir st) new_dir in
        if existsb (cd_match test_dir) (namelist ents) then
          modify (set_cur (or_root (rstrip_slash test_dir))) ;; ret true
        else print (EvDirNotFound new_dir) ;; ret false
  end.

(** [full_path] of [read_file], before [.replace('//', '/')]. *)
Definition read_path (cur filename : pystr) : pystr :=
  if startswith filename [slash] then lstrip_slash filename
  else replace_backslash (path_join (lstrip_slash cur) filename).

(** [archive.open(name)]: [ZipFile] resolves a name through its
    [NameToInfo] dict, so the last entry of that name wins. *)
Definition open_entry (name : pystr) (ents : list entry) : option (list Byte.byte) :=
  fold_left (fun acc e => if str_eqb (ename e) name then Some (edata e) else acc)
            ents None.

Definition read_file (filename : pystr) : M (option pystr) :=
  st <- get ;;
  match archive st with
  | None => ret None
  | Some ents =>
      let full_path := replace_dslash (read_path (current_dir st) filename) in
      if str_in full_path (namelist ents) then
        match open_entry full_path ents with
        | Some data =>
            match utf8_decode data with
            | Some text => ret (Some text)
            | None => print (EvBinaryFile filename) ;; ret None
            end
        | None => ret None
        end
      else ret None
  end.

(** ** ShellEmulator *)

Section Shell.

Variable E : env.

(** The entry decoration of [cmd_ls]. *)
Definition ls_item (st : sh) (item : pystr) : ev :=
  let names := match archive st with Some ents => namelist ents | None => [] end in
  let full_path := replace_backslash (path_join (rstrip_slash (current_dir st)) item) in
  if str_in (full_path ++ [slash]) names
     || existsb (fun name => startswith name (full_path ++ [slash])) names
  then EvLsDir item
  else if endswith item (py ".py") || endswith item (py ".sh")
          || endswith item (py ".bat")
  then EvLsScript item
  else if endswith item (py ".txt") || endswith item (py ".md")
          || endswith item (py ".json") || endswith item (py ".xml")
  then EvLsText item
  else EvLsPlain item.

Definition cmd_ls (args : list pystr) : M unit :=
  st <- get ;;
  let directory := match args with d :: _ => Some d | [] => None end in
  match list_files st directory with
  | None => print EvVfsNotLoaded
  | Some [] => print EvDirEmpty
  | Some files => mapM_ (fun item => print (ls_item st item)) files
  end.

Definition cmd_cd (args : list pystr) : M unit :=
  match args with
  | [] => _ <- change_directory [slash] ;; ret tt
  | d :: _ => _ <- change_directory d ;; ret tt
  end.

Definition cmd_whoami : M unit := print (EvWhoami (env_user E)).

(** The part of [cmd_tail] after [lines_count] is known. *)
Definition tail_body (filename : pystr) (lines_count : Z) : M unit :=
  content <- read_file filename ;;
  match content with
  | None => print (EvFileUnavailable filename)
  | Some c =>
      let all_lines := split_on newline c in
      let start_index := Z.max 0 (Z.of_nat (List.length all_lines) - lines_count) in
      print (EvTailHeader lines_count filename) ;;
      mapM_ (fun p => print (EvNumLine (fst p) (snd p)))
            (enumerate (start_index + 1) (skipn (Z.to_nat start_index) all_lines))
  end.

Definition cmd_tail (args : list pystr) : M unit :=
  match args with
  | [] => print EvTailUsage ;; print EvTailExample
  | filename :: rest =>
      match rest with
      | [] => tail_body filename 10
      | tok :: _ =>
          match py_int tok with
          | None => print EvCountNotNumber
          | Some n => if n <=? 0 then print EvCountNotPositive
                      else tail_body filename n
          end
      end
  end.

Definition cmd_cat (args : list pystr) : M unit :=
  match args with
  | [] => print EvCatUsage ;; print EvCatExample
  | filename :: _ =>
      content <- read_file filename ;;
      match content with
      | None => print (EvFileUnavailable filename)
      | Some c =>
          print (EvCatHeader filename) ;;
          mapM_ (fun p => print (EvNumLine (fst p) (snd p)))
                (enumerate 1 (split_on newline c))
      end
  end.

Definition count_true {A} (f : A -> bool) (l : list A) : Z :=
  Z.of_nat (List.length (filter f l)).

Definition cmd_vfs_info : M unit :=
  st <- get ;;
  match archive st with
  | None => print EvInfoNotLoaded
  | Some ents =>
      match env_stat E with
      | None => print EvInfoError
      | Some s =>
          let all_files := namelist ents in
          print (EvInfo (mkInfo (env_vfs_name E) (s_abspath s) (s_hash s)
                   (count_true (fun f => negb (endswith f [slash])) all_files)
                   (count_true (fun d => endswith d [slash]) all_files)
                   (Z.of_nat (List.length all_files)) (s_size s) (s_modified s)))
      end
  end.

Definition cmd_history : M unit :=
  st <- get ;;
  match history st with
  | [] => print EvHistEmpty
  | h =>
      print EvHistHeader ;;
      let start_index := Z.max 0 (Z.of_nat (List.length h) - 20) in
      mapM_ (fun p => print (EvHistLine (fst p) (snd p)))
            (enumerate (start_index + 1) (skipn (Z.to_nat start_index) h))
  end.

Definition cmd_pwd : M unit := st <- get ;; print (EvPwd (current_dir st)).

Definition help_usages : list pystr :=
  [py "ls [dir]"; py "cd <dir>"; py "pwd"; py "cat <file>"; py "tail <file> [n]";
   py "whoami"; py "vfs-info"; py "history"; py "clear/clr"; py "help";
   py "exit/quit"].

Definition cmd_help : M unit :=
  print EvHelpHeader ;; mapM_ (fun u => print (EvHelpRow u)) help_usages.

Definition cmd_clear : M unit := print EvClear.

(** The [if/elif] chain inside the [try] of [execute_command]. *)
Definition dispatch (cmd : pystr) (args : list pystr) : M unit :=
  if str_eqb cmd (py "ls") then cmd_ls args
  else if str_eqb cmd (py "cd") then cmd_cd args
  else if str_eqb cmd (py "whoami") then cmd_whoami
  else if str_eqb cmd (py "tail") then cmd_tail args
  else if str_eqb cmd (py "vfs-info") then cmd_vfs_info
  else if str_eqb cmd (py "history") then cmd_history
  else if str_eqb cmd (py "cat") then cmd_cat args
  else if str_eqb cmd (py "pwd") then cmd_pwd
  else if str_eqb cmd (py "help") then cmd_help
  else if str_eqb cmd (py "exit") || str_eqb cmd (py "quit") then
    print EvGoodbye ;; raise (SystemExit 0)
  else if str_eqb cmd (py "clear") || str_eqb cmd (py "clr") then cmd_clear
  else print (EvCmdNotFound cmd).

Definition execute_command (command : pystr) : M unit :=
  let c := strip command in
  match c with
  | [] => ret tt
  | _ =>
      modify (push_history c) ;;
      let args := split_ws c in
      let cmd := lower (hd [] args) in
      try_except (dispatch cmd (tl args)) (fun e => print (EvCmdError e))
  end.

(** The body of the [for line_num, line in enumerate(lines, 1)] loop of
    [execute_script]. *)
Definition script_line (line_num : Z) (line0 : pystr) : M unit :=
  let line := strip line0 in
  match line with
  | [] => print (EvEchoBlank line_num)
  | c :: tl_line =>
      if Z.eqb c hash_sign then print (EvEchoComment line_num (strip tl_line))
      else print (EvEchoCmd line_num line) ;;
           execute_command line ;;
           print EvNewline
  end.

(** The loop itself. *)
Fixpoint script_loop (line_num : Z) (lines : list pystr) : M unit :=
  match lines with
  | [] => ret tt
  | line0 :: rest => script_line line_num line0 ;; script_loop (line_num + 1) rest
  end.

(** [execute_script(script_path)]; [contents] is [f.readlines()], or [None]
    when the path does not exist. *)
Definition execute_script (script_path : pystr) (contents : option (list pystr))
    : M bool :=
  match contents with
  | None => print (EvScriptNotFound script_path) ;; ret false
  | Some lines =>
      try_except
        (print (EvScriptStart script_path) ;; print EvRule ;;
         script_loop 1 lines ;;
         print EvRule ;; print EvScriptDone ;; ret true)
        (fun e => print (EvScriptError e) ;; ret false)
  end.

(** The [while True] loop of [run_interactive]; [inputs] are the lines
    [input()] returns, end of the list is [EOFError]. *)
Fixpoint interactive_loop (inputs : list pystr) : M unit :=
  match inputs with
  | [] =>
      st <- get ;;
      print (EvPrompt (env_vfs_name E) (current_dir st)) ;;
      print EvEof
  | i :: rest =>
      st <- get ;;
      print (EvPrompt (env_vfs_name E) (current_dir st)) ;;
      let command := strip i in
      (match command with [] => ret tt | _ => execute_command command end) ;;
      interactive_loop rest
  end.

(** [run_interactive] from the start-up script on. *)
Definition run_session (script : option (pystr * option (list pystr)))
    (inputs : list pystr) : M unit :=
  (match script with
   | None => ret tt
   | Some (p, c) =>
       ok <- execute_script p c ;;
       print (if ok then EvScriptOk else EvScriptFailed) ;; print EvNewline
   end) ;;
  print EvBanner ;;
  interactive_loop inputs.

End Shell.

(** ** The start of [run_interactive]: the offer of a demonstration VFS *)

Fixpoint takewhile (f : Z -> bool) (s : pystr) : pystr :=
  match s with
  | [] => []
  | c :: s' => if f c then c :: takewhile f s' else []
  end.

(** [os.path.basename(p)]: what follows the last ['/']. *)
Definition path_basename (p : pystr) : pystr :=
  rev (takewhile (fun c => negb (Z.eqb c slash)) (rev p)).

Definition set_archive (a : option (list entry)) (s : sh) : sh :=
  mkSh a (current_dir s) (history s) (out s).

(** How [zipfile.ZipFile(vfs_path, 'r')] ends in [load_vfs]: it opens an
    archive with these entries, or raises [zipfile.BadZipFile], or raises
    another exception. *)
Inductive load_result :=
| LoadOk (ents : list entry)
| LoadBadZip
| LoadFailed (e : exn).

(** [load_vfs(vfs_path)]; the new [vfs_name] is [path_basename vfs_path]. *)
Definition load_vfs (vfs_path : pystr) (r : load_result) : M unit :=
  match r with
  | LoadOk ents =>
      modify (set_archive (Some ents)) ;;
      print (EvVfsLoaded (path_basename vfs_path)) ;;
      (if Nat.eqb (List.length ents) 0 then print EvArchiveEmpty else ret tt)
  | LoadBadZip => print (EvBadZip vfs_path) ;; modify (set_archive None)
  | LoadFailed e => print (EvLoadError e) ;; modify (set_archive None)
  end.

(** The entries [create_test_vfs] writes, in its order: each name with the
    UTF-8 bytes of the text it passes to [writestr]. *)
Definition test_vfs_entries : list entry :=
  [
   mkEntry (py "readme.txt")
     [
      Byte.xd0; Byte.x94; Byte.xd0; Byte.xbe; Byte.xd0; Byte.xb1; Byte.xd1; Byte.x80; Byte.xd0; Byte.xbe;
      Byte.x20; Byte.xd0; Byte.xbf; Byte.xd0; Byte.xbe; Byte.xd0; Byte.xb6; Byte.xd0; Byte.xb0; Byte.xd0;
      Byte.xbb; Byte.xd0; Byte.xbe; Byte.xd0; Byte.xb2; Byte.xd0; Byte.xb0; Byte.xd1; Byte.x82; Byte.xd1;
      Byte.x8c; Byte.x20; Byte.xd0; Byte.xb2; Byte.x20; Byte.xd1; Byte.x82; Byte.xd0; Byte.xb5; Byte.xd1;
      Byte.x81; Byte.xd1; Byte.x82; Byte.xd0; Byte.xbe; Byte.xd0; Byte.xb2; Byte.xd1; Byte.x83; Byte.xd1;
      Byte.x8e; Byte.x20; Byte.x56; Byte.x46; Byte.x53; Byte.x21; Byte.x0a; Byte.xd0; Byte.xad; Byte.xd1;
      Byte.x82; Byte.xd0; Byte.xbe; Byte.x20; Byte.xd0; Byte.xb4; Byte.xd0; Byte.xb5; Byte.xd0; Byte.xbc;
      Byte.xd0; Byte.xbe; Byte.xd0; Byte.xbd; Byte.xd1; Byte.x81; Byte.xd1; Byte.x82; Byte.xd1; Byte.x80;
      Byte.xd0; Byte.xb0; Byte.xd1; Byte.x86; Byte.xd0; Byte.xb8; Byte.xd0; Byte.xbe; Byte.xd0; Byte.xbd;
      Byte.xd0; Byte.xbd; Byte.xd1; Byte.x8b; Byte.xd0; Byte.xb9; Byte.x20; Byte.xd1; Byte.x84; Byte.xd0;
      Byte.xb0; Byte.xd0; Byte.xb9; Byte.xd0; Byte.xbb; Byte.x2e; Byte.x0a; Byte.xd0; Byte.xa2; Byte.xd1;
      Byte.x80; Byte.xd0; Byte.xb5; Byte.xd1; Byte.x82; Byte.xd1; Byte.x8c; Byte.xd1; Byte.x8f; Byte.x20;
      Byte.xd1; Byte.x81; Byte.xd1; Byte.x82; Byte.xd1; Byte.x80; Byte.xd0; Byte.xbe; Byte.xd0; Byte.xba;
      Byte.xd0; Byte.xb0; Byte.x20; Byte.xd0; Byte.xb4; Byte.xd0; Byte.xbb; Byte.xd1; Byte.x8f; Byte.x20;
      Byte.xd1; Byte.x82; Byte.xd0; Byte.xb5; Byte.xd1; Byte.x81; Byte.xd1; Byte.x82; Byte.xd0; Byte.xb0;
      Byte.x20; Byte.x74; Byte.x61; Byte.x69; Byte.x6c; Byte.x2e];
   mkEntry (py "documents/doc1.txt")
     [
      Byte.xd0; Byte.x9f; Byte.xd0; Byte.xb5; Byte.xd1; Byte.x80; Byte.xd0; Byte.xb2; Byte.xd1; Byte.x8b;
      Byte.xd0; Byte.xb9; Byte.x20; Byte.xd0; Byte.xb4; Byte.xd0; Byte.xbe; Byte.xd0; Byte.xba; Byte.xd1;
      Byte.x83; Byte.xd0; Byte.xbc; Byte.xd0; Byte.xb5; Byte.xd0; Byte.xbd; Byte.xd1; Byte.x82; Byte.x0a;
      Byte.xd0; Byte.x92; Byte.xd1; Byte.x82; Byte.xd0; Byte.xbe; Byte.xd1; Byte.x80; Byte.xd0; Byte.xb0;
      Byte.xd1; Byte.x8f; Byte.x20; Byte.xd1; Byte.x81; Byte.xd1; Byte.x82; Byte.xd1; Byte.x80; Byte.xd0;
      Byte.xbe; Byte.xd0; Byte.xba; Byte.xd0; Byte.xb0; Byte.x0a; Byte.xd0; Byte.xa2; Byte.xd1; Byte.x80;
      Byte.xd0; Byte.xb5; Byte.xd1; Byte.x82; Byte.xd1; Byte.x8c; Byte.xd1; Byte.x8f; Byte.x20; Byte.xd1;
      Byte.x81; Byte.xd1; Byte.x82; Byte.xd1; Byte.x80; Byte.xd0; Byte.xbe; Byte.xd0; Byte.xba; Byte.xd0;
      Byte.xb0; Byte.x0a; Byte.xd0; Byte.xa7; Byte.xd0; Byte.xb5; Byte.xd1; Byte.x82; Byte.xd0; Byte.xb2;
      Byte.xd0; Byte.xb5; Byte.xd1; Byte.x80; Byte.xd1; Byte.x82; Byte.xd0; Byte.xb0; Byte.xd1; Byte.x8f;
      Byte.x0a; Byte.xd0; Byte.x9f; Byte.xd1; Byte.x8f; Byte.xd1; Byte.x82; Byte.xd0; Byte.xb0; Byte.xd1;
      Byte.x8f];
   mkEntry (py "documents/report.md")
     [
      Byte.x23; Byte.x20; Byte.xd0; Byte.x9e; Byte.xd1; Byte.x82; Byte.xd1; Byte.x87; Byte.xd0; Byte.xb5;
      Byte.xd1; Byte.x82; Byte.x0a; Byte.x23; Byte.x23; Byte.x20; Byte.xd0; Byte.xa0; Byte.xd0; Byte.xb0;
      Byte.xd0; Byte.xb7; Byte.xd0; Byte.xb4; Byte.xd0; Byte.xb5; Byte.xd0; Byte.xbb; Byte.x20; Byte.x31;
      Byte.x0a; Byte.xd0; Byte.xa1; Byte.xd0; Byte.xbe; Byte.xd0; Byte.xb4; Byte.xd0; Byte.xb5; Byte.xd1;
      Byte.x80; Byte.xd0; Byte.xb6; Byte.xd0; Byte.xb0; Byte.xd0; Byte.xbd; Byte.xd0; Byte.xb8; Byte.xd0;
      Byte.xb5; Byte.x20; Byte.xd0; Byte.xbe; Byte.xd1; Byte.x82; Byte.xd1; Byte.x87; Byte.xd0; Byte.xb5;
      Byte.xd1; Byte.x82; Byte.xd0; Byte.xb0];
   mkEntry (py "scripts/hello.py")
     [
      Byte.x23; Byte.x21; Byte.x2f; Byte.x75; Byte.x73; Byte.x72; Byte.x2f; Byte.x62; Byte.x69; Byte.x6e;
      Byte.x2f; Byte.x65; Byte.x6e; Byte.x76; Byte.x20; Byte.x70; Byte.x79; Byte.x74; Byte.x68; Byte.x6f;
      Byte.x6e; Byte.x0a; Byte.x70; Byte.x72; Byte.x69; Byte.x6e; Byte.x74; Byte.x28; Byte.x22; Byte.x48;
      Byte.x65; Byte.x6c; Byte.x6c; Byte.x6f; Byte.x20; Byte.x66; Byte.x72; Byte.x6f; Byte.x6d; Byte.x20;
      Byte.x56; Byte.x46; Byte.x53; Byte.x21; Byte.x22; Byte.x29; Byte.x0a; Byte.x23; Byte.x20; Byte.xd0;
      Byte.xad; Byte.xd1; Byte.x82; Byte.xd0; Byte.xbe; Byte.x20; Byte.xd1; Byte.x82; Byte.xd0; Byte.xb5;
      Byte.xd1; Byte.x81; Byte.xd1; Byte.x82; Byte.xd0; Byte.xbe; Byte.xd0; Byte.xb2; Byte.xd1; Byte.x8b;
      Byte.xd0; Byte.xb9; Byte.x20; Byte.xd1; Byte.x81; Byte.xd0; Byte.xba; Byte.xd1; Byte.x80; Byte.xd0;
      Byte.xb8; Byte.xd0; Byte.xbf; Byte.xd1; Byte.x82];
   mkEntry (py "scripts/utils.py")
     [
      Byte.x64; Byte.x65; Byte.x66; Byte.x20; Byte.x68; Byte.x65; Byte.x6c; Byte.x70; Byte.x65; Byte.x72;
      Byte.x28; Byte.x29; Byte.x3a; Byte.x0a; Byte.x20; Byte.x20; Byte.x20; Byte.x20; Byte.x72; Byte.x65;
      Byte.x74; Byte.x75; Byte.x72; Byte.x6e; Byte.x20; Byte.x22; Byte.x68; Byte.x65; Byte.x6c; Byte.x70;
      Byte.x22];
   mkEntry (py "data/config.json")
     [
      Byte.x7b; Byte.x22; Byte.x61; Byte.x70; Byte.x70; Byte.x22; Byte.x3a; Byte.x20; Byte.x22; Byte.x74;
      Byte.x65; Byte.x73; Byte.x74; Byte.x22; Byte.x2c; Byte.x20; Byte.x22; Byte.x76; Byte.x65; Byte.x72;
      Byte.x73; Byte.x69; Byte.x6f; Byte.x6e; Byte.x22; Byte.x3a; Byte.x20; Byte.x31; Byte.x2e; Byte.x30;
      Byte.x2c; Byte.x20; Byte.x22; Byte.x61; Byte.x75; Byte.x74; Byte.x68; Byte.x6f; Byte.x72; Byte.x22;
      Byte.x3a; Byte.x20; Byte.x22; Byte.x75; Byte.x73; Byte.x65; Byte.x72; Byte.x22; Byte.x7d];
   mkEntry (py "images/readme.txt")
     [
      Byte.xd0; Byte.x97; Byte.xd0; Byte.xb4; Byte.xd0; Byte.xb5; Byte.xd1; Byte.x81; Byte.xd1; Byte.x8c;
      Byte.x20; Byte.xd0; Byte.xbc; Byte.xd0; Byte.xbe; Byte.xd0; Byte.xb3; Byte.xd0; Byte.xbb; Byte.xd0;
      Byte.xb8; Byte.x20; Byte.xd0; Byte.xb1; Byte.xd1; Byte.x8b; Byte.x20; Byte.xd0; Byte.xb1; Byte.xd1;
      Byte.x8b; Byte.xd1; Byte.x82; Byte.xd1; Byte.x8c; Byte.x20; Byte.xd0; Byte.xb2; Byte.xd0; Byte.xb0;
      Byte.xd1; Byte.x88; Byte.xd0; Byte.xb8; Byte.x20; Byte.xd0; Byte.xb8; Byte.xd0; Byte.xb7; Byte.xd0;
      Byte.xbe; Byte.xd0; Byte.xb1; Byte.xd1; Byte.x80; Byte.xd0; Byte.xb0; Byte.xd0; Byte.xb6; Byte.xd0;
      Byte.xb5; Byte.xd0; Byte.xbd; Byte.xd0; Byte.xb8; Byte.xd1; Byte.x8f]].

(** What the file system does with [create_test_vfs]: writing the archive
    raises [e]; or it is written and [load_vfs] finds no ZIP archive, or
    fails with [e]; or it is written and loaded back ([s] is what
    [os.stat] reports for it later). *)
Inductive test_vfs_outcome :=
| TestWriteError (e : exn)
| TestBadZip
| TestLoadError (e : exn)
| TestLoaded (s : option stat_data).

(** [create_test_vfs(vfs_path)] *)
Definition create_test_vfs (vfs_path : pystr) (o : test_vfs_outcome) : M bool :=
  match o with
  | TestWriteError e => print (EvTestVfsError e) ;; ret false
  | TestBadZip =>
      print (EvTestVfsWritten vfs_path) ;; load_vfs vfs_path LoadBadZip ;; ret true
  | TestLoadError e =>
      print (EvTestVfsWritten vfs_path) ;; load_vfs vfs_path (LoadFailed e) ;; ret true
  | TestLoaded _ =>
      print (EvTestVfsWritten vfs_path) ;; load_vfs vfs_path (LoadOk test_vfs_entries) ;;
      ret true
  end.

(** The session inputs once [test.vfs] is loaded: the new [vfs_name] and the
    [os.stat] of the new [vfs_path]. *)
Definition test_vfs_env (E : env) (o : test_vfs_outcome) : env :=
  match o with
  | TestLoaded s => mkEnv (env_user E) (path_basename (py "test.vfs")) s
  | _ => E
  end.

(** [['y', 'yes', 'д', 'да']] *)
Definition yes_answers : list pystr := [py "y"; py "yes"; [1076]; [1076; 1072]].

(** [run_interactive()]: with no archive loaded it first asks (an [input]
    whose end of input raises [EOFError] out of the method) whether to
    create [test.vfs], then goes on with [run_session]. *)
Definition run_interactive (E : env) (o : test_vfs_outcome)
    (script : option (pystr * option (list pystr))) (inputs : list pystr) : M unit :=
  st <- get ;;
  match archive st with
  | Some _ => run_session E script inputs
  | None =>
      print EvOfferTestVfs ;;
      match inputs with
      | [] => raise (PyException (py "EOFError"))
      | response :: inputs' =>
          let yes := str_in (lower response) yes_answers in
          (if yes then
             ok <- create_test_vfs (py "test.vfs") o ;;
             print (if ok then EvTestVfsReady else EvTestVfsFailed)
           else ret tt) ;;
          print EvNewline ;;
          run_session (if yes then test_vfs_env E o else E) script inputs'
      end
  end.

(** ** Sample archives *)

Definition bytes_of (s : string) : list Byte.byte :=
  map Ascii.byte_of_ascii (list_ascii_of_string s).

(** [readme.txt] holding ["A\nB\nC"], a file under [documents/], and a
    file whose bytes are not UTF-8. *)
Definition demo_entries : list entry :=
  [mkEntry (py "readme.txt") [Byte.x41; Byte.x0a; Byte.x42; Byte.x0a; Byte.x43];
   mkEntry (py "documents/doc1.txt") (bytes_of "first");
   mkEntry (py "documents/sub/a.txt") [];
   mkEntry (py "documents/sub/b.txt") [];
   mkEntry (py "image.bin") [Byte.xff; Byte.xfe]].

Definition demo_state : sh := mkSh (Some demo_entries) [slash] [] [].

Definition demo_env : env := mkEnv (py "user") (py "demo.vfs") None.

(** An archive holding only [documents/doc1.txt]. *)
Definition docs_state : sh :=
  mkSh (Some [mkEntry (py "documents/doc1.txt") (bytes_of "x")]) [slash] [] [].



(** A sequence of [change_directory] calls. *)
Fixpoint cd_seq (dirs : list pystr) : M unit :=
  match dirs with
  | [] => ret tt
  | d :: dirs' => _ <- change_directory d ;; cd_seq dirs'
  end.

(** Terms used to state properties. *)
Definition verb_of (c : pystr) : pystr := lower (hd [] (split_ws c)).
Definition is_quit_verb (cmd : pystr) : bool :=
  str_eqb cmd (py "exit") || str_eqb cmd (py "quit").
(** A stripped script line that [execute_script] echoes and dispatches. *)
Definition is_cmd_line (line : pystr) : bool :=
  match line with [] => false | c :: _ => negb (Z.eqb c hash_sign) end.
Definition cmd_lines (lines : list pystr) : list pystr :=
  filter is_cmd_line (map strip lines).
Definition is_exit_line (line : pystr) : bool :=
  is_cmd_line (strip line) && is_quit_verb (verb_of (strip line)).

(** What [list_files] collects for one name under the prefix [T]. *)
Definition under (T name : pystr) : bool :=
  startswith name T && negb (str_eqb name T).
Definition rel_of (T name : pystr) : pystr := skipn (List.length T) name.
Definition file_under (T name : pystr) : bool :=
  under T name && negb (contains_char slash (rel_of T name)).
Definition files_under (T : pystr) (names : list pystr) : list pystr :=
  map (rel_of T) (filter (file_under T) names).
Definition dir_of (T name : pystr) : option pystr :=
  if under T name && contains_char slash (rel_of T name)
  then Some (hd [] (split_on slash (rel_of T name)))
  else None.

(** [VirtualFileSystem.file_exists(filename)]: the path is resolved as in
    [read_file], without the [.replace('//', '/')] step. *)
Definition file_exists (st : sh) (filename : pystr) : bool :=
  match archive st with
  | None => false
  | Some ents => str_in (read_path (current_dir st) filename) (namelist ents)
  end.

(** [str.encode('utf-8')], which [ZipFile.writestr] applies to text data
    (defined on code points that are not surrogates). *)
Definition utf8_encode_cp (c : Z) : list Z :=
  if c <? 128 then [c]
  else if c <? 2048 then [192 + c / 64; 128 + c mod 64]
  else if c <? 65536 then [224 + c / 4096; 128 + (c / 64) mod 64; 128 + c mod 64]
  else [240 + c / 262144; 128 + (c / 4096) mod 64; 128 + (c / 64) mod 64;
        128 + c mod 64].
Definition utf8_encode (s : pystr) : list Z := flat_map utf8_encode_cp s.

(** A Unicode scalar value: a code point outside the surrogate range. *)
Definition valid_cp (c : Z) : bool :=
  (0 <=? c) && (c <=? 1114111) && negb ((55296 <=? c) && (c <=? 57343)).

(** [sep.join(lines)] for a one-character separator. *)
Fixpoint join_on (sep : Z) (lines : list pystr) : pystr :=
  match lines with
  | [] => []
  | [x] => x
  | x :: l' => x ++ sep :: join_on sep l'
  end.

(** Whether ['//'] occurs in a string. *)
Fixpoint has_dslash (s : pystr) : bool :=
  match s with
  | a :: ((b :: _) as t) => (Z.eqb a slash && Z.eqb b slash) || has_dslash t
  | _ => false
  end.

(** The commands [run_interactive] hands to [execute_command]: the inputs
    stripped, empty ones dropped. *)
Definition entered_commands (inputs : list pystr) : list pystr :=
  filter (fun c => match c with [] => false | _ => true end) (map strip inputs).

(** Bytes that occur in no UTF-8 text. *)
Definition utf8_bad (b : Z) : Prop := b = 192 \/ b = 193 \/ 245 <= b.

(** A text file holding the UTF-8 encoding of a Cyrillic letter. *)
Definition cyr_state : sh :=
  mkSh (Some [mkEntry (py "d.txt") [Byte.xd0; Byte.x94; Byte.x0a]]) [slash] [] [].

(** ** Facts about the model *)

Lemma str_eqb_eq a b : str_eqb a b = true <-> a = b.
Proof. unfold str_eqb; destruct (list_eq_dec Z.eq_dec a b); split; congruence. Qed.

Lemma str_eqb_refl a : str_eqb a a = true.
Proof. apply str_eqb_eq; reflexivity. Qed.

Lemma str_eqb_false a b : str_eqb a b = false <-> a <> b.
Proof.
  unfold str_eqb; destruct (list_eq_dec Z.eq_dec a b); split; congruence.
Qed.

Lemma startswith_spec s p : startswith s p = true <-> exists q, s = p ++ q.
Proof.
  revert s; induction p as [|c p IH]; intros s.
  - split; [exists s; reflexivity | destruct s; reflexivity].
  - destruct s as [|d s]; simpl.
    + split; [discriminate | intros [q Hq]; discriminate].
    + rewrite andb_true_iff, Z.eqb_eq, IH. split.
      * intros [-> [q ->]]; exists q; reflexivity.
      * intros [q Hq]; injection Hq as -> ->; eauto.
Qed.

(** *** The monad *)

(** [m] returns normally, keeps the archive and the history, and only
    appends to the output. *)
Definition Good {A} (m : M A) : Prop :=
  forall s, exists a s' l, m s = (Ret a, s') /\ archive s' = archive s
    /\ history s' = history s /\ out s' = out s ++ l.

Lemma Good_ret {A} (a : A) : Good (ret a).
Proof. intros s; exists a, s, []; rewrite app_nil_r; auto. Qed.

Lemma Good_get : Good get.
Proof. intros s; exists s, s, []; rewrite app_nil_r; auto. Qed.

Lemma Good_print e : Good (print e).
Proof. intros s; exists tt, (emit e s), [e]; auto. Qed.

Lemma Good_set_cur d : Good (modify (set_cur d)).
Proof. intros s; exists tt, (set_cur d s), []; rewrite app_nil_r; auto. Qed.

Lemma Good_bind {A B} (m : M A) (k : A -> M B) :
  Good m -> (forall a, Good (k a)) -> Good (bind m k).
Proof.
  intros Hm Hk s.
  destruct (Hm s) as (a & s1 & l1 & E1 & A1 & H1 & O1).
  destruct (Hk a s1) as (b & s2 & l2 & E2 & A2 & H2 & O2).
  exists b, s2, (l1 ++ l2). unfold bind; rewrite E1.
  repeat split; try congruence. rewrite O2, O1, app_assoc; reflexivity.
Qed.

Lemma Good_mapM_ {A} (f : A -> M unit) (l : list A) :
  (forall x, Good (f x)) -> Good (mapM_ f l).
Proof.
  intros Hf; induction l as [|x l IH]; simpl.
  - apply Good_ret.
  - apply Good_bind; auto.
Qed.

Lemma try_except_Good {A} (m : M A) h s :
  Good m -> try_except m h s = m s.
Proof.
  intros Hm; unfold try_except.
  destruct (Hm s) as (a & s' & l & -> & _); reflexivity.
Qed.

Create HintDb good.
#[export] Hint Resolve Good_ret Good_get Good_print Good_set_cur : good.

Ltac good :=
  repeat first
    [ apply Good_bind; [ | intro ]
    | apply Good_mapM_; intro
    | solve [ eauto with good ]
    | match goal with
      | |- Good (match ?x with _ => _ end) => destruct x
      | |- Good (if ?b then _ else _) => destruct b
      | |- Good (let _ := _ in _) => cbv zeta
      end ].

Lemma change_directory_Good d : Good (change_directory d).
Proof. unfold change_directory; good. Qed.

Lemma read_file_Good f : Good (read_file f).
Proof. unfold read_file; good. Qed.
#[export] Hint Resolve change_directory_Good read_file_Good : good.

Lemma tail_body_Good f n : Good (tail_body f n).
Proof. unfold tail_body; good. Qed.
#[export] Hint Resolve tail_body_Good : good.

Lemma cmd_ls_Good args : Good (cmd_ls args).
Proof. unfold cmd_ls; good. Qed.
Lemma cmd_cd_Good args : Good (cmd_cd args).
Proof. unfold cmd_cd; good. Qed.
Lemma cmd_whoami_Good E : Good (cmd_whoami E).
Proof. unfold cmd_whoami; good. Qed.
Lemma cmd_tail_Good args : Good (cmd_tail args).
Proof. unfold cmd_tail; good. Qed.
Lemma cmd_vfs_info_Good E : Good (cmd_vfs_info E).
Proof. unfold cmd_vfs_info; good. Qed.
Lemma cmd_history_Good : Good cmd_history.
Proof. unfold cmd_history; good. Qed.
Lemma cmd_cat_Good args : Good (cmd_cat args).
Proof. unfold cmd_cat; good. Qed.
Lemma cmd_pwd_Good : Good cmd_pwd.
Proof. unfold cmd_pwd; good. Qed.
Lemma cmd_help_Good : Good cmd_help.
Proof. unfold cmd_help; good. Qed.
Lemma cmd_clear_Good : Good cmd_clear.
Proof. unfold cmd_clear; good. Qed.
#[export] Hint Resolve cmd_ls_Good cmd_cd_Good cmd_whoami_Good cmd_tail_Good
  cmd_vfs_info_Good cmd_history_Good cmd_cat_Good cmd_pwd_Good cmd_help_Good
  cmd_clear_Good : good.

(** Every verb but [exit]/[quit] returns normally from the [if/elif] chain. *)
Lemma dispatch_Good E cmd args :
  is_quit_verb cmd = false -> Good (dispatch E cmd args).
Proof.
  unfold is_quit_verb, dispatch; intros H; rewrite H; good.
Qed.

Lemma dispatch_quit E cmd args s :
  is_quit_verb cmd = true ->
  dispatch E cmd args s = (Raise (SystemExit 0), emit EvGoodbye s).
Proof.
  unfold is_quit_verb; intros H. unfold dispatch.
  destruct (str_eqb cmd (py "exit")) eqn:He;
    [apply str_eqb_eq in He; subst; reflexivity |].
  destruct (str_eqb cmd (py "quit")) eqn:Hq; [|discriminate].
  apply str_eqb_eq in Hq; subst; reflexivity.
Qed.

(** [execute_command] on a non-empty line: the line is appended to the
    history, then the verb runs inside the [try]. *)
Lemma execute_command_eq E c st :
  strip c <> [] ->
  execute_command E c st =
  try_except (dispatch E (verb_of (strip c)) (tl (split_ws (strip c))))
             (fun e => print (EvCmdError e)) (push_history (strip c) st).
Proof.
  intros H; unfold execute_command, verb_of.
  destruct (strip c); [congruence | reflexivity].
Qed.

Lemma execute_command_normal E c st :
  is_quit_verb (verb_of (strip c)) = false ->
  exists st' l, execute_command E c st = (Ret tt, st')
    /\ archive st' = archive st
    /\ history st' = history st ++ (match strip c with [] => [] | _ => [strip c] end)
    /\ out st' = out st ++ l.
Proof.
  intros Hq. destruct (strip c) as [|x r] eqn:Hc.
  - exists st, []. unfold execute_command; rewrite Hc, app_nil_r.
    repeat split; rewrite ?app_nil_r; reflexivity.
  - rewrite execute_command_eq by congruence. rewrite Hc in *.
    rewrite try_except_Good by (apply dispatch_Good; exact Hq).
    destruct (dispatch_Good E _ (tl (split_ws (x :: r))) Hq (push_history (x :: r) st))
      as ([] & s' & l & E1 & A1 & H1 & O1).
    exists s', l. rewrite E1. simpl in *. repeat split; assumption.
Qed.

Lemma execute_command_quit E c st :
  strip c <> [] -> is_quit_verb (verb_of (strip c)) = true ->
  execute_command E c st
  = (Raise (SystemExit 0), emit EvGoodbye (push_history (strip c) st)).
Proof.
  intros Hn Hq. rewrite execute_command_eq by exact Hn.
  unfold try_except. rewrite dispatch_quit by exact Hq. reflexivity.
Qed.

(** *** [strip] *)

Lemma dropwhile_idem f s : dropwhile f (dropwhile f s) = dropwhile f s.
Proof.
  induction s as [|c s IH]; simpl; [reflexivity|].
  destruct (f c) eqn:Hc; [exact IH | simpl; rewrite Hc; reflexivity].
Qed.

Lemma dropwhile_suffix f s : exists p, s = p ++ dropwhile f s.
Proof.
  induction s as [|c s [p Hp]]; simpl; [exists []; reflexivity|].
  destruct (f c); [exists (c :: p); simpl; congruence | exists []; reflexivity].
Qed.

Lemma dropwhile_head f s x r : dropwhile f s = x :: r -> f x = false.
Proof.
  induction s as [|c s IH]; simpl; [discriminate|].
  destruct (f c) eqn:Hc; [exact IH | intros H; injection H as -> ->; exact Hc].
Qed.

Lemma dropwhile_keep f s :
  match s with [] => True | x :: _ => f x = false end -> dropwhile f s = s.
Proof. destruct s as [|x s]; simpl; [reflexivity | intros ->; reflexivity]. Qed.

Lemma strip_idem s : strip (strip s) = strip s.
Proof.
  unfold strip.
  set (t := dropwhile is_space s).
  set (u := dropwhile is_space (rev t)).
  destruct (dropwhile_suffix is_space (rev t)) as [p Hp]; fold u in Hp.
  assert (Ht : t = rev u ++ rev p)
    by (rewrite <- rev_app_distr, <- Hp, rev_involutive; reflexivity).
  rewrite (dropwhile_keep is_space (rev u)).
  - rewrite rev_involutive. unfold u at 1. rewrite dropwhile_idem. reflexivity.
  - destruct (rev u) as [|x r] eqn:Hr; [exact I|].
    apply (dropwhile_head is_space s x (r ++ rev p)).
    fold t; rewrite Ht; reflexivity.
Qed.

(** *** The script runner *)

Lemma script_line_normal E n line0 st :
  is_exit_line line0 = false ->
  exists s1 l1, script_line E n line0 st = (Ret tt, s1)
    /\ archive s1 = archive st
    /\ history s1 = history st
                    ++ (if is_cmd_line (strip line0) then [strip line0] else [])
    /\ out s1 = out st ++ l1
    /\ (is_cmd_line (strip line0) = true -> In (EvEchoCmd n (strip line0)) (out s1)).
Proof.
  intros Hx. pose proof (strip_idem line0) as Hid.
  unfold script_line, is_exit_line in *.
  destruct (strip line0) as [|c r] eqn:Hs.
  - exists (emit (EvEchoBlank n) st), [EvEchoBlank n]; simpl.
    repeat split; try rewrite app_nil_r; auto; discriminate.
  - simpl is_cmd_line in *. destruct (Z.eqb c hash_sign) eqn:Hh; simpl in Hx |- *.
    + exists (emit (EvEchoComment n (strip r)) st), [EvEchoComment n (strip r)].
      repeat split; try rewrite app_nil_r; auto; discriminate.
    + rewrite <- Hid in Hx.
      destruct (execute_command_normal E (c :: r) (emit (EvEchoCmd n (c :: r)) st) Hx)
        as (s' & l & E1 & A1 & H1 & O1).
      rewrite Hid in H1.
      exists (emit EvNewline s'), (EvEchoCmd n (c :: r) :: l ++ [EvNewline]).
      unfold bind, print, modify. rewrite E1. simpl in *.
      repeat split.
      * exact A1.
      * exact H1.
      * rewrite O1, <- !app_assoc; reflexivity.
      * intros _. rewrite O1. apply in_or_app; left. apply in_or_app; left.
        apply in_or_app; right; left; reflexivity.
Qed.

Lemma script_loop_normal E n lines st :
  forallb (fun l => negb (is_exit_line l)) lines = true ->
  exists st' l, script_loop E n lines st = (Ret tt, st')
    /\ archive st' = archive st
    /\ history st' = history st ++ cmd_lines lines
    /\ out st' = out st ++ l
    /\ (forall i line, nth_error lines i = Some line ->
          is_cmd_line (strip line) = true ->
          In (EvEchoCmd (n + Z.of_nat i) (strip line)) (out st')).
Proof.
  revert n st; induction lines as [|line0 rest IH]; intros n st Hall.
  - exists st, []; simpl. repeat split; rewrite ?app_nil_r; auto.
    intros [|i] ? H; discriminate.
  - simpl in Hall; apply andb_true_iff in Hall as [Hl Hrest].
    apply negb_true_iff in Hl.
    destruct (script_line_normal E n line0 st Hl) as (s1 & l1 & E1 & A1 & H1 & O1 & I1).
    destruct (IH (n + 1) s1 Hrest) as (s2 & l2 & E2 & A2 & H2 & O2 & I2).
    exists s2, (l1 ++ l2). simpl script_loop. unfold bind at 1. rewrite E1.
    repeat split.
    + exact E2.
    + congruence.
    + rewrite H2, H1. unfold cmd_lines; simpl.
      destruct (is_cmd_line (strip line0)); simpl; rewrite <- app_assoc; reflexivity.
    + rewrite O2, O1, app_assoc; reflexivity.
    + intros [|i] line Hn Hc; simpl in Hn.
      * injection Hn as <-. rewrite Z.add_0_r. rewrite O2.
        apply in_or_app; left; auto.
      * replace (n + Z.of_nat (S i)) with (n + 1 + Z.of_nat i) by lia.
        apply (I2 i line Hn Hc).
Qed.

Lemma exit_line_strip l :
  is_exit_line l = true ->
  exists c r, strip l = c :: r /\ Z.eqb c hash_sign = false
    /\ is_quit_verb (verb_of (strip l)) = true.
Proof.
  unfold is_exit_line. destruct (strip l) as [|c r]; simpl; [discriminate|].
  intros H; apply andb_true_iff in H as [H1 H2].
  exists c, r; repeat split; auto. apply negb_true_iff; exact H1.
Qed.

Lemma script_line_exit E n l st :
  is_exit_line l = true ->
  script_line E n l st
  = (Raise (SystemExit 0),
     emit EvGoodbye (push_history (strip l) (emit (EvEchoCmd n (strip l)) st))).
Proof.
  intros Hx. destruct (exit_line_strip l Hx) as (c & r & Hs & Hh & Hq).
  pose proof (strip_idem l) as Hid.
  unfold script_line. rewrite Hs in *. rewrite Hh.
  unfold bind at 1, print at 1, modify. unfold bind at 1.
  rewrite execute_command_quit by (rewrite Hid; first [discriminate | exact Hq]).
  rewrite Hid. reflexivity.
Qed.

Lemma script_loop_exit E n pre l post st :
  forallb (fun x => negb (is_exit_line x)) pre = true ->
  is_exit_line l = true ->
  exists st', script_loop E n (pre ++ l :: post) st = (Raise (SystemExit 0), st')
    /\ history st' = history st ++ cmd_lines pre ++ [strip l].
Proof.
  revert n st; induction pre as [|x pre IH]; intros n st Hall Hx.
  - simpl. unfold bind at 1. rewrite script_line_exit by exact Hx.
    eexists; split; [reflexivity|]. reflexivity.
  - simpl in Hall; apply andb_true_iff in Hall as [Hl Hrest].
    apply negb_true_iff in Hl.
    destruct (script_line_normal E n x st Hl) as (s1 & l1 & E1 & A1 & H1 & O1 & I1).
    destruct (IH (n + 1) s1 Hrest Hx) as (s2 & E2 & H2).
    exists s2. simpl. unfold bind at 1. rewrite E1. split; [exact E2|].
    rewrite H2, H1. unfold cmd_lines; simpl.
    destruct (is_cmd_line (strip x)); simpl; rewrite <- !app_assoc; reflexivity.
Qed.

Lemma script_loop_exit_out E n pre l post st :
  forallb (fun x => negb (is_exit_line x)) pre = true ->
  is_exit_line l = true ->
  exists st', script_loop E n (pre ++ l :: post) st = (Raise (SystemExit 0), st')
    /\ history st' = history st ++ cmd_lines pre ++ [strip l]
    /\ exists o, out st' = out st ++ o ++ [EvGoodbye].
Proof.
  revert n st; induction pre as [|x pre IH]; intros n st Hall Hx.
  - simpl. unfold bind at 1. rewrite script_line_exit by exact Hx.
    eexists; split; [reflexivity|]. split; [reflexivity|].
    exists [EvEchoCmd n (strip l)]. cbn [out emit push_history]. rewrite <- app_assoc. reflexivity.
  - simpl in Hall; apply andb_true_iff in Hall as [Hl Hrest].
    apply negb_true_iff in Hl.
    destruct (script_line_normal E n x st Hl) as (s1 & l1 & E1 & A1 & H1 & O1 & I1).
    destruct (IH (n + 1) s1 Hrest Hx) as (s2 & E2 & H2 & o & O2).
    exists s2. simpl. unfold bind at 1. rewrite E1. split; [exact E2|]. split.
    + rewrite H2, H1. unfold cmd_lines; simpl.
      destruct (is_cmd_line (strip x)); simpl; rewrite <- !app_assoc; reflexivity.
    + exists (l1 ++ o). rewrite O2, O1, <- !app_assoc. reflexivity.
Qed.

Lemma session_exit_anywhere E p pre l post inputs st :
  forallb (fun x => negb (is_exit_line x)) pre = true ->
  is_exit_line l = true ->
  exists st', run_session E (Some (p, Some (pre ++ l :: post))) inputs st
              = (Raise (SystemExit 0), st')
    /\ history st' = history st ++ cmd_lines pre ++ [strip l]
    /\ exists o, out st' = out st ++ o ++ [EvGoodbye].
Proof.
  intros Hall Hx.
  destruct (script_loop_exit_out E 1 pre l post (emit EvRule (emit (EvScriptStart p) st)) Hall Hx)
    as (s' & Hs & Hh & o & Ho).
  exists s'. unfold run_session, execute_script, try_except.
  cbv [bind print modify]. rewrite Hs. cbn [is_Exception].
  split; [reflexivity|]. split; [exact Hh|].
  exists (EvScriptStart p :: EvRule :: o). rewrite Ho. cbn [out emit].
  rewrite <- !app_assoc. reflexivity.
Qed.

(** *** Printing loops *)

Lemma mapM_print {A} (g : A -> ev) (l : list A) s :
  mapM_ (fun x => print (g x)) l s
  = (Ret tt, mkSh (archive s) (current_dir s) (history s) (out s ++ map g l)).
Proof.
  revert s; induction l as [|x l IH]; intros s; simpl.
  - rewrite app_nil_r; destruct s; reflexivity.
  - unfold bind at 1, print at 1, modify. rewrite IH. simpl.
    rewrite <- app_assoc; reflexivity.
Qed.

Lemma enumerate_app {A} k (l1 l2 : list A) :
  enumerate k (l1 ++ l2) = enumerate k l1 ++ enumerate (k + Z.of_nat (List.length l1)) l2.
Proof.
  revert k; induction l1 as [|x l1 IH]; intros k; simpl.
  - rewrite Z.add_0_r; reflexivity.
  - rewrite IH. do 3 f_equal. lia.
Qed.

Lemma enumerate_length {A} k (l : list A) : List.length (enumerate k l) = List.length l.
Proof. revert k; induction l; intros k; simpl; auto. Qed.

(** ** The claims *)

(** *** Command engine *)

(** C5 (amended): dispatching [exit] or [quit] (verb compared after
    [lower()]) prints the farewell line and raises [SystemExit(0)] out of
    [execute_command] instead of returning; every other non-empty command
    line returns normally from the dispatcher.  The exception is caught
    neither by the script runner nor by the session: an exit line anywhere
    in a start-up script (after lines that are not exit lines) ends the
    whole session, raising [SystemExit(0)] with the farewell line as the
    last output, so neither the script's completion message nor the
    interactive loop follows; the lines after it are not dispatched. *)
Theorem exit_raises_SystemExit :
  (forall E c st, strip c <> [] -> is_quit_verb (verb_of (strip c)) = true ->
     execute_command E c st
     = (Raise (SystemExit 0), emit EvGoodbye (push_history (strip c) st)))
  /\ (forall E c st, is_quit_verb (verb_of (strip c)) = false ->
     exists st', execute_command E c st = (Ret tt, st'))
  /\ (forall E p pre l post inputs st,
     forallb (fun x => negb (is_exit_line x)) pre = true -> is_exit_line l = true ->
     exists st', run_session E (Some (p, Some (pre ++ l :: post))) inputs st
                 = (Raise (SystemExit 0), st')
       /\ history st' = history st ++ cmd_lines pre ++ [strip l]
       /\ exists o, out st' = out st ++ o ++ [EvGoodbye]).
Proof.
  split; [|split].
  - intros; apply execute_command_quit; assumption.
  - intros E c st Hq. destruct (execute_command_normal E c st Hq) as (st' & _ & H & _).
    exists st'; exact H.
  - intros; apply session_exit_anywhere; assumption.
Qed.

Lemma exit_raises_SystemExit_witness :
  ((strip (py "exit") <> [] /\ is_quit_verb (verb_of (strip (py "exit"))) = true)
   /\ execute_command demo_env (py "exit") demo_state
      = (Raise (SystemExit 0), emit EvGoodbye (push_history (strip (py "exit")) demo_state)))
  /\ ((forallb (fun x => negb (is_exit_line x)) [py "pwd"] = true
       /\ is_exit_line (py " EXIT ") = true)
      /\ exists st', run_session demo_env (Some (py "s", Some ([py "pwd"] ++ py " EXIT " :: [py "ls"])))
                       [py "ls"] demo_state = (Raise (SystemExit 0), st')
         /\ history st' = history demo_state ++ cmd_lines [py "pwd"] ++ [strip (py " EXIT ")]
         /\ exists o, out st' = out demo_state ++ o ++ [EvGoodbye]).
Proof.
  split.
  - split; [split; [discriminate | reflexivity] |].
    apply (proj1 exit_raises_SystemExit); [discriminate | reflexivity].
  - split; [split; vm_compute; reflexivity|].
    apply (proj2 (proj2 exit_raises_SystemExit)); vm_compute; reflexivity.
Defined.

(** C5 counterexample: [exit] gives the dispatcher's caller no result at
    all: [execute_command] raises [SystemExit], and so does the script
    runner around it, without checking anything. *)
Lemma exit_is_not_a_returned_result :
  fst (execute_command demo_env (py "exit") demo_state) = Raise (SystemExit 0)
  /\ fst (execute_script demo_env (py "s") (Some [py "exit"; py "pwd"]) demo_state)
     = Raise (SystemExit 0).
Proof. split; vm_compute; reflexivity. Qed.

(** C8: a script without an [exit]/[quit] line runs to the end and reports
    completion; every command line is echoed with its line number and
    dispatched (it is in the history, in order), whatever happened on the
    lines before it.  An [exit]/[quit] line stops the run: the lines after
    it are not dispatched. *)
Theorem script_continues_after_failures :
  (forall E p lines st,
     forallb (fun l => negb (is_exit_line l)) lines = true ->
     exists st' l, execute_script E p (Some lines) st = (Ret true, st')
       /\ history st' = history st ++ cmd_lines lines
       /\ out st' = out st ++ [EvScriptStart p; EvRule] ++ l ++ [EvRule; EvScriptDone]
       /\ (forall i line, nth_error lines i = Some line ->
             is_cmd_line (strip line) = true ->
             In (EvEchoCmd (Z.of_nat i + 1) (strip line)) (out st')))
  /\ (forall E p pre l post st,
     forallb (fun x => negb (is_exit_line x)) pre = true ->
     is_exit_line l = true ->
     exists st', execute_script E p (Some (pre ++ l :: post)) st
                 = (Raise (SystemExit 0), st')
       /\ history st' = history st ++ cmd_lines pre ++ [strip l]).
Proof.
  split.
  - intros E p lines st Hall.
    set (s0 := emit EvRule (emit (EvScriptStart p) st)).
    destruct (script_loop_normal E 1 lines s0 Hall) as (s1 & l & E1 & A1 & H1 & O1 & I1).
    exists (emit EvScriptDone (emit EvRule s1)), l.
    assert (Hrun : execute_script E p (Some lines) st
                   = (Ret true, emit EvScriptDone (emit EvRule s1))).
    { unfold execute_script, try_except. unfold bind at 1 2, print at 1 2, modify.
      fold s0. unfold bind at 1. rewrite E1. reflexivity. }
    repeat split.
    + exact Hrun.
    + simpl; exact H1.
    + simpl. rewrite O1. simpl. rewrite <- !app_assoc. reflexivity.
    + intros i line Hn Hc. simpl. apply in_or_app; left. apply in_or_app; left.
      rewrite Z.add_comm. exact (I1 i line Hn Hc).
  - intros E p pre l post st Hall Hx.
    destruct (script_loop_exit E 1 pre l post
                (emit EvRule (emit (EvScriptStart p) st)) Hall Hx) as (s1 & E1 & H1).
    exists s1. unfold execute_script, try_except.
    unfold bind at 1 2, print at 1 2, modify. unfold bind at 1. rewrite E1.
    split; [reflexivity | exact H1].
Qed.

Lemma script_continues_after_failures_witness :
  forallb (fun l => negb (is_exit_line l)) [py "frobnicate"; py "pwd"] = true
  /\ exists st' l,
     execute_script demo_env (py "s") (Some [py "frobnicate"; py "pwd"]) demo_state
     = (Ret true, st')
     /\ history st' = history demo_state ++ cmd_lines [py "frobnicate"; py "pwd"]
     /\ out st' = out demo_state ++ [EvScriptStart (py "s"); EvRule] ++ l
                  ++ [EvRule; EvScriptDone]
     /\ (forall i line, nth_error [py "frobnicate"; py "pwd"] i = Some line ->
           is_cmd_line (strip line) = true ->
           In (EvEchoCmd (Z.of_nat i + 1) (strip line)) (out st')).
Proof.
  split; [reflexivity|].
  apply (proj1 script_continues_after_failures); reflexivity.
Defined.

(** The scenario of the spec: an unknown verb, then [pwd]; the run goes on
    to [pwd] and completes. *)
Example script_invalid_then_valid :
  out (snd (execute_script demo_env (py "s") (Some [py "frobnicate"; py "pwd"])
              demo_state))
  = [EvScriptStart (py "s"); EvRule;
     EvEchoCmd 1 (py "frobnicate"); EvCmdNotFound (py "frobnicate"); EvNewline;
     EvEchoCmd 2 (py "pwd"); EvPwd [slash]; EvNewline;
     EvRule; EvScriptDone].
Proof. vm_compute; reflexivity. Qed.

(** C9: the dispatcher appends the stripped line to the history before the
    verb's handler runs (the handler, and any error message it prints,
    sees the extended history), whatever the outcome; for [history] the
    last line printed is the command itself, numbered with its position
    in the full history. *)
Theorem history_records_before_dispatch :
  forall E c st, strip c <> [] ->
    execute_command E c st
    = try_except (dispatch E (verb_of (strip c)) (tl (split_ws (strip c))))
                 (fun e => print (EvCmdError e)) (push_history (strip c) st)
    /\ history (snd (execute_command E c st)) = history st ++ [strip c]
    /\ (verb_of (strip c) = py "history" ->
        exists pre, out (snd (execute_command E c st))
          = pre ++ [EvHistLine (Z.of_nat (List.length (history st)) + 1) (strip c)]).
Proof.
  intros E c st Hn. split; [|split].
  - apply execute_command_eq; exact Hn.
  - destruct (is_quit_verb (verb_of (strip c))) eqn:Hq.
    + rewrite execute_command_quit by assumption. reflexivity.
    + destruct (execute_command_normal E c st Hq) as (st' & l & E1 & _ & H1 & _).
      rewrite E1; simpl. rewrite H1. destruct (strip c); [congruence | reflexivity].
  - intros Hv. rewrite execute_command_eq by exact Hn. rewrite Hv.
    assert (Hd : forall args, dispatch E (py "history") args = cmd_history)
      by reflexivity.
    rewrite Hd, try_except_Good by apply cmd_history_Good.
    unfold cmd_history, bind at 1, get.
    change (history (push_history (strip c) st)) with (history st ++ [strip c]).
    destruct (history st ++ [strip c]) as [|x h'] eqn:Hh;
      [exfalso; destruct (history st); discriminate |].
    rewrite <- Hh. set (h := history st ++ [strip c]).
    unfold bind, print at 1, modify.
    rewrite mapM_print. simpl out.
    set (N := List.length (history st)).
    set (start := Z.max 0 (Z.of_nat (List.length h) - 20)).
    assert (HN : List.length h = (N + 1)%nat)
      by (subst h N; rewrite length_app; reflexivity).
    assert (Hs : (Z.to_nat start <= N)%nat) by (subst start; rewrite HN; lia).
    assert (Hsk : skipn (Z.to_nat start) h
                  = skipn (Z.to_nat start) (history st) ++ [strip c]).
    { subst h. rewrite skipn_app.
      replace (Z.to_nat start - List.length (history st))%nat with 0%nat by lia.
      reflexivity. }
    rewrite Hsk, enumerate_app, map_app.
    eexists. rewrite app_assoc. f_equal. simpl. f_equal. f_equal.
    rewrite length_skipn. fold N.
    assert (0 <= start) by (subst start; lia).
    rewrite Nat2Z.inj_sub by exact Hs. rewrite Z2Nat.id by assumption. lia.
Qed.

Lemma history_records_before_dispatch_witness :
  strip (py "history") <> []
  /\ (execute_command demo_env (py "history") demo_state
      = try_except (dispatch demo_env (verb_of (strip (py "history")))
                      (tl (split_ws (strip (py "history")))))
                   (fun e => print (EvCmdError e))
                   (push_history (strip (py "history")) demo_state)
     /\ history (snd (execute_command demo_env (py "history") demo_state))
        = history demo_state ++ [strip (py "history")]
     /\ (verb_of (strip (py "history")) = py "history" ->
         exists pre, out (snd (execute_command demo_env (py "history") demo_state))
           = pre ++ [EvHistLine (Z.of_nat (List.length (history demo_state)) + 1)
                                (strip (py "history"))])).
Proof.
  split; [discriminate|].
  apply history_records_before_dispatch; discriminate.
Defined.

(** [history] as the first command of a session lists itself as entry 1. *)
Example history_lists_itself :
  out (snd (execute_command demo_env (py "history") demo_state))
  = [EvHistHeader; EvHistLine 1 (py "history")].
Proof. vm_compute; reflexivity. Qed.

(** C10: the handlers of [cat], [tail], [cd] and [ls] read only their
    leading arguments; extra tokens change nothing and report nothing. *)
Theorem surplus_arguments_ignored :
  forall f n d x xs,
    cmd_cat (f :: x :: xs) = cmd_cat [f]
    /\ cmd_tail (f :: n :: x :: xs) = cmd_tail [f; n]
    /\ cmd_cd (d :: x :: xs) = cmd_cd [d]
    /\ cmd_ls (d :: x :: xs) = cmd_ls [d].
Proof. intros; repeat split. Qed.

(** *** Reading files *)

Lemma str_eqb_sym a b : str_eqb a b = str_eqb b a.
Proof.
  destruct (str_eqb a b) eqn:H1, (str_eqb b a) eqn:H2; auto.
  - apply str_eqb_eq in H1; subst; rewrite str_eqb_refl in H2; discriminate.
  - apply str_eqb_eq in H2; subst; rewrite str_eqb_refl in H1; discriminate.
Qed.

Lemma open_entry_fold_none ents n acc :
  fold_left (fun acc e => if str_eqb (ename e) n then Some (edata e) else acc)
            ents acc = None
  <-> acc = None /\ str_in n (namelist ents) = false.
Proof.
  revert acc; induction ents as [|e ents IH]; intros acc; simpl.
  - tauto.
  - rewrite IH. unfold str_in at 2. simpl. fold (str_in n (namelist ents)).
    rewrite (str_eqb_sym n (ename e)).
    destruct (str_eqb (ename e) n); simpl; intuition discriminate.
Qed.

Lemma open_entry_none ents n :
  open_entry n ents = None <-> str_in n (namelist ents) = false.
Proof. unfold open_entry; rewrite open_entry_fold_none; tauto. Qed.

Lemma read_file_loaded f st ents :
  archive st = Some ents ->
  let full_path := replace_dslash (read_path (current_dir st) f) in
  read_file f st =
  match open_entry full_path ents with
  | Some data =>
      match utf8_decode data with
      | Some text => (Ret (Some text), st)
      | None => (Ret None, emit (EvBinaryFile f) st)
      end
  | None => (Ret None, st)
  end.
Proof.
  intros Ha full_path. unfold read_file, bind at 1, get. rewrite Ha. fold full_path.
  destruct (str_in full_path (namelist ents)) eqn:Hin.
  - destruct (open_entry full_path ents) as [data|] eqn:Ho.
    + destruct (utf8_decode data); reflexivity.
    + apply open_entry_none in Ho; congruence.
  - assert (Ho : open_entry full_path ents = None) by (apply open_entry_none; exact Hin).
    rewrite Ho; reflexivity.
Qed.

Lemma read_file_some f st c :
  fst (read_file f st) = Ret (Some c) -> read_file f st = (Ret (Some c), st).
Proof.
  destruct (archive st) as [ents|] eqn:Ha.
  - rewrite (read_file_loaded f st ents Ha).
    destruct (open_entry _ ents) as [data|]; [destruct (utf8_decode data)|];
      simpl; congruence.
  - unfold read_file, bind, get; rewrite Ha; simpl; discriminate.
Qed.

(** C4 (amended): on a loaded archive [read_file] returns the decoded text
    when the resolved name matches an entry whose bytes are valid UTF-8,
    and [None] otherwise: the same [None] when no entry matches and when
    the bytes are not UTF-8 (only the latter prints a binary-data message);
    an empty file reads as [Some ""], which differs from [None]. *)
Theorem read_file_results :
  forall st ents f, archive st = Some ents ->
  let full_path := replace_dslash (read_path (current_dir st) f) in
  fst (read_file f st)
    = Ret (match open_entry full_path ents with
           | Some data => utf8_decode data
           | None => None
           end)
  /\ (open_entry full_path ents = None -> snd (read_file f st) = st)
  /\ (forall data, open_entry full_path ents = Some data -> utf8_decode data = None ->
        snd (read_file f st) = emit (EvBinaryFile f) st)
  /\ (open_entry full_path ents = Some [] -> fst (read_file f st) = Ret (Some [])).
Proof.
  intros st ents f Ha full_path.
  rewrite (read_file_loaded f st ents Ha). fold full_path.
  repeat split.
  - destruct (open_entry full_path ents) as [data|]; [destruct (utf8_decode data)|];
      reflexivity.
  - intros ->; reflexivity.
  - intros data -> ->; reflexivity.
  - intros ->; reflexivity.
Qed.

Lemma read_file_results_witness :
  archive demo_state = Some demo_entries
  /\ (let full_path := replace_dslash (read_path (current_dir demo_state) (py "image.bin")) in
      fst (read_file (py "image.bin") demo_state)
        = Ret (match open_entry full_path demo_entries with
               | Some data => utf8_decode data
               | None => None
               end)
      /\ (open_entry full_path demo_entries = None ->
          snd (read_file (py "image.bin") demo_state) = demo_state)
      /\ (forall data, open_entry full_path demo_entries = Some data ->
            utf8_decode data = None ->
            snd (read_file (py "image.bin") demo_state)
            = emit (EvBinaryFile (py "image.bin")) demo_state)
      /\ (open_entry full_path demo_entries = Some [] ->
          fst (read_file (py "image.bin") demo_state) = Ret (Some []))).
Proof.
  split; [reflexivity|].
  apply read_file_results; reflexivity.
Defined.

(** C4 counterexample: a missing name and an entry whose bytes are not
    UTF-8 give the same result, [None]. *)
Lemma read_failures_coincide :
  fst (read_file (py "missing.txt") demo_state) = Ret None
  /\ fst (read_file (py "image.bin") demo_state) = Ret None.
Proof. split; vm_compute; reflexivity. Qed.



(** [cat] on the same file numbers the three lines 1, 2, 3. *)
Example cat_readme :
  out (snd (cmd_cat [py "readme.txt"] demo_state))
  = [EvCatHeader (py "readme.txt"); EvNumLine 1 (py "A"); EvNumLine 2 (py "B");
     EvNumLine 3 (py "C")].
Proof. vm_compute; reflexivity. Qed.


(** *** Paths *)

Lemma dropwhile_prefix f s :
  exists p, s = p ++ dropwhile f s /\ forallb f p = true.
Proof.
  induction s as [|c s (p & Hp & Hf)]; simpl; [exists []; auto|].
  destruct (f c) eqn:Hc.
  - exists (c :: p); simpl; rewrite Hc, Hf; split; [congruence | reflexivity].
  - exists []; auto.
Qed.

Lemma dropwhile_split f l :
  (dropwhile f l = [] /\ forallb f l = true)
  \/ exists u y w, l = u ++ y :: w /\ forallb f u = true /\ f y = false
                   /\ dropwhile f l = y :: w.
Proof.
  induction l as [|c l IH]; simpl; [left; auto|].
  destruct (f c) eqn:Hc.
  - destruct IH as [[H1 H2] | (u & y & w & -> & Hu & Hy & Hd)].
    + left; rewrite H1, H2; auto.
    + right; exists (c :: u), y, w; simpl; rewrite Hc, Hu; auto.
  - right; exists [], c, l; auto.
Qed.

Lemma rstrip_decomp s :
  exists p, s = rstrip_slash s ++ p /\ forallb (Z.eqb slash) p = true.
Proof.
  destruct (dropwhile_prefix (Z.eqb slash) (rev s)) as (p & Hp & Hf).
  exists (rev p). unfold rstrip_slash. split.
  - rewrite <- rev_app_distr, <- Hp, rev_involutive; reflexivity.
  - rewrite forallb_forall in *. intros x Hx; apply Hf, in_rev; exact Hx.
Qed.

Lemma rstrip_no_trailing s r : rstrip_slash s <> r ++ [slash].
Proof.
  unfold rstrip_slash; intros H.
  apply (f_equal (@rev Z)) in H. rewrite rev_involutive, rev_app_distr in H.
  simpl in H. apply dropwhile_head in H. rewrite Z.eqb_refl in H; discriminate.
Qed.

Lemma rstrip_app_slash s : rstrip_slash (s ++ [slash]) = rstrip_slash s.
Proof. unfold rstrip_slash; rewrite rev_app_distr; reflexivity. Qed.

Lemma rstrip_keep s : (forall r, s <> r ++ [slash]) -> rstrip_slash s = s.
Proof.
  intros H; unfold rstrip_slash. rewrite dropwhile_keep; [apply rev_involutive|].
  destruct (rev s) as [|x r] eqn:Hr; [exact I|].
  destruct (Z.eqb slash x) eqn:Hx; [|reflexivity].
  apply Z.eqb_eq in Hx; subst x. exfalso; apply (H (rev r)).
  rewrite <- (rev_involutive s), Hr; reflexivity.
Qed.

(** [rstrip('/')] keeps a first character other than ['/']. *)
Lemma rstrip_head x r :
  x <> slash -> exists r', rstrip_slash (x :: r) = x :: r'.
Proof.
  intros Hx. destruct (rstrip_decomp (x :: r)) as (p & Hp & Hf).
  destruct (rstrip_slash (x :: r)) as [|y r'] eqn:Hs.
  - simpl in Hp; subst p. cbn [forallb] in Hf. apply andb_true_iff in Hf as [Hf _].
    apply Z.eqb_eq in Hf; congruence.
  - simpl in Hp; injection Hp as -> _; eauto.
Qed.

(** [rstrip('/')] of a rooted path is empty or rooted. *)
Lemma rstrip_rooted r :
  rstrip_slash (slash :: r) = [] \/ exists r', rstrip_slash (slash :: r) = slash :: r'.
Proof.
  destruct (rstrip_decomp (slash :: r)) as (p & Hp & _).
  destruct (rstrip_slash (slash :: r)) as [|y r'] eqn:Hs; [left; reflexivity|].
  right; simpl in Hp; injection Hp as <- _; eauto.
Qed.

Lemma slashes_then_slash p q :
  forallb (Z.eqb slash) p = true -> exists q', p ++ slash :: q = slash :: q'.
Proof.
  destruct p as [|y p]; cbn [forallb app]; [eauto|].
  intros H; apply andb_true_iff in H as [H _]; apply Z.eqb_eq in H; subst y; eauto.
Qed.

Lemma startswith_slash_head x r : startswith (x :: r) [slash] = Z.eqb slash x.
Proof. simpl; destruct r; apply andb_true_r. Qed.

(** [posixpath.dirname] of an unrooted path without trailing ['/']. *)
Lemma dirname_unrooted x r :
  x <> slash ->
  path_dirname (x :: r) = []
  \/ exists r', path_dirname (x :: r) = x :: r'
       /\ (forall t, x :: r' <> t ++ [slash])
       /\ exists q, x :: r = (x :: r') ++ slash :: q.
Proof.
  intros Hx. unfold path_dirname.
  destruct (dropwhile_split (fun c => negb (Z.eqb c slash)) (rev (x :: r)))
    as [[H1 _] | (u & y & w & Hl & Hu & Hy & Hd)].
  - left. rewrite H1. reflexivity.
  - right. rewrite Hd.
    apply negb_false_iff, Z.eqb_eq in Hy; subst y.
    assert (HP : x :: r = rev w ++ slash :: rev u).
    { rewrite <- (rev_involutive (x :: r)), Hl, rev_app_distr. simpl.
      rewrite <- app_assoc; reflexivity. }
    destruct (rev w) as [|x' w'] eqn:Hw; [simpl in HP; injection HP; congruence|].
    simpl in HP. injection HP as <- Hr.
    simpl rev. rewrite Hw. simpl app.
    replace (forallb (Z.eqb slash) (x :: w' ++ [slash])) with false
      by (cbn [forallb app]; rewrite Z.eqb_sym; apply Z.eqb_neq in Hx;
          rewrite Hx; reflexivity).
    simpl. change (x :: w' ++ [slash]) with ((x :: w') ++ [slash]).
    rewrite rstrip_app_slash.
    destruct (rstrip_head x w' Hx) as [r' Hr'].
    exists r'. rewrite Hr'. split; [reflexivity|]. split.
    + rewrite <- Hr'. apply rstrip_no_trailing.
    + destruct (rstrip_decomp (x :: w')) as (p & Hp & Hf).
      destruct (slashes_then_slash p (rev u) Hf) as [q' Hq'].
      exists q'. rewrite Hr' in Hp. injection Hp as Hw'.
      rewrite Hr, Hw', <- app_assoc, Hq'. reflexivity.
Qed.

(** *** Navigation *)

(** Entry names are stored unrooted. *)
Definition unrooted (names : list pystr) : Prop :=
  forall n, In n names -> startswith n [slash] = false.

(** What [change_directory] keeps true of the current directory. *)
Definition cd_inv (names : list pystr) (P : pystr) : Prop :=
  P = [slash]
  \/ ((exists x r, P = x :: r /\ x <> slash)
      /\ (forall r, P <> r ++ [slash])
      /\ exists n, In n names /\ (n = P \/ exists q, n = P ++ slash :: q)).

Lemma cd_test_dir_form cur d : exists j, cd_test_dir cur d = j ++ [slash].
Proof. unfold cd_test_dir; destruct (startswith d [slash]); eexists; reflexivity. Qed.

Lemma cd_success_inv names j :
  unrooted names ->
  existsb (cd_match (j ++ [slash])) names = true ->
  cd_inv names (or_root (rstrip_slash (j ++ [slash]))).
Proof.
  intros Hu Hex. rewrite rstrip_app_slash.
  apply existsb_exists in Hex as (n & Hin & Hm).
  destruct (rstrip_decomp j) as (p & Hp & Hf).
  destruct (rstrip_slash j) as [|y r] eqn:Hc; [left; reflexivity|].
  right. simpl or_root.
  unfold cd_match in Hm. rewrite rstrip_app_slash, Hc in Hm.
  apply orb_true_iff in Hm as [Hm | Hm].
  - apply startswith_spec in Hm as [q Hq].
    destruct (slashes_then_slash p q Hf) as [q' Hq'].
    assert (Hn : n = (y :: r) ++ slash :: q')
      by (rewrite Hq, Hp, <- !app_assoc; simpl; rewrite Hq'; reflexivity).
    split; [|split].
    + exists y, r; split; [reflexivity|]. intros ->.
      specialize (Hu n Hin). rewrite Hn in Hu. cbn [app] in Hu.
      rewrite startswith_slash_head, Z.eqb_refl in Hu; discriminate.
    + rewrite <- Hc; apply rstrip_no_trailing.
    + exists n; split; [exact Hin | right; exists q'; exact Hn].
  - apply str_eqb_eq in Hm; subst n. split; [|split].
    + exists y, r; split; [reflexivity|]. intros ->.
      specialize (Hu _ Hin).
      rewrite startswith_slash_head, Z.eqb_refl in Hu; discriminate.
    + rewrite <- Hc; apply rstrip_no_trailing.
    + exists (y :: r); split; [exact Hin | left; reflexivity].
Qed.

Lemma cd_parent_inv names P :
  cd_inv names P -> P <> [slash] ->
  cd_inv names (or_root (path_dirname (rstrip_slash P))).
Proof.
  intros [Hroot | ((x & r & -> & Hx) & Ht & (n & Hin & Hn))] Hne; [contradiction|].
  rewrite rstrip_keep by exact Ht.
  destruct (dirname_unrooted x r Hx) as [-> | (r' & -> & Ht' & q & Hq)];
    [left; reflexivity|].
  right. simpl or_root. split; [|split].
  - exists x, r'; auto.
  - exact Ht'.
  - exists n; split; [exact Hin|]. right.
    destruct Hn as [-> | (q2 & ->)].
    + exists q; exact Hq.
    + exists (q ++ slash :: q2). rewrite Hq, <- !app_assoc. reflexivity.
Qed.

Lemma change_directory_inv d st ents :
  archive st = Some ents -> unrooted (namelist ents) ->
  cd_inv (namelist ents) (current_dir st) ->
  archive (snd (change_directory d st)) = Some ents
  /\ cd_inv (namelist ents) (current_dir (snd (change_directory d st))).
Proof.
  intros Ha Hu Hi. unfold change_directory, bind, get, modify, print, ret.
  rewrite Ha.
  destruct (str_eqb d [slash]); [simpl; split; [exact Ha | left; reflexivity]|].
  destruct (str_eqb d (py "..")).
  - destruct (negb (str_eqb (current_dir st) [slash])) eqn:Hr; simpl.
    + split; [exact Ha|]. apply cd_parent_inv; [exact Hi|].
      apply negb_true_iff, str_eqb_false in Hr; exact Hr.
    + split; assumption.
  - destruct (cd_test_dir_form (current_dir st) d) as [j Hj]. rewrite Hj.
    destruct (existsb (cd_match (j ++ [slash])) (namelist ents)) eqn:Hex; simpl.
    + split; [exact Ha|]. apply cd_success_inv; assumption.
    + split; assumption.
Qed.

Lemma cd_seq_inv dirs st ents :
  archive st = Some ents -> unrooted (namelist ents) ->
  cd_inv (namelist ents) (current_dir st) ->
  cd_inv (namelist ents) (current_dir (snd (cd_seq dirs st))).
Proof.
  revert st; induction dirs as [|d dirs IH]; intros st Ha Hu Hi; [exact Hi|].
  simpl. unfold bind at 1.
  destruct (change_directory_inv d st ents Ha Hu Hi) as [Ha' Hi'].
  destruct (change_directory_Good d st) as (a & s' & l & Hcd & _).
  rewrite Hcd in *. apply IH; assumption.
Qed.

(** On a loaded archive whose entry names do not start with ['/'],
    starting from ['/'], after any sequence of [change_directory] calls the
    current directory is ['/'], or a path [P] that does not start with
    ['/'] and has no trailing ['/'] such that some entry's name equals [P]
    or starts with [P + '/']. *)
Theorem cd_seq_current_dir_shape :
  forall ents dirs st,
  archive st = Some ents -> current_dir st = [slash] -> unrooted (namelist ents) ->
  let P := current_dir (snd (cd_seq dirs st)) in
  P = [slash]
  \/ ((exists x r, P = x :: r /\ x <> slash) /\ (forall r, P <> r ++ [slash])
      /\ exists n, In n (namelist ents) /\ (n = P \/ startswith n (P ++ [slash]) = true)).
Proof.
  intros ents dirs st Ha Hc Hu P.
  assert (Hi : cd_inv (namelist ents) P)
    by (apply (cd_seq_inv dirs st ents Ha Hu); rewrite Hc; left; reflexivity).
  destruct Hi as [Hr | ((x & r & HP & Hx) & Ht & (n & Hin & Hn))]; [left; exact Hr|].
  right. split; [exists x, r; split; assumption|].
  split; [exact Ht|].
  exists n; split; [exact Hin|].
  destruct Hn as [-> | (q & ->)]; [left; reflexivity|].
  right. apply startswith_spec. exists q. rewrite <- app_assoc. reflexivity.
Qed.

Lemma cd_seq_current_dir_shape_witness :
  (archive demo_state = Some demo_entries /\ current_dir demo_state = [slash]
   /\ unrooted (namelist demo_entries))
  /\ (let P := current_dir (snd (cd_seq [py "documents"; py "sub"; py ".."; py "nope"] demo_state)) in
      P = [slash]
      \/ ((exists x r, P = x :: r /\ x <> slash) /\ (forall r, P <> r ++ [slash])
          /\ exists n, In n (namelist demo_entries) /\ (n = P \/ startswith n (P ++ [slash]) = true))).
Proof.
  assert (Hu : unrooted (namelist demo_entries)).
  { intros n Hn. simpl in Hn.
    repeat (destruct Hn as [<- | Hn]; [reflexivity|]); contradiction. }
  split; [exact (conj eq_refl (conj eq_refl Hu))|].
  apply cd_seq_current_dir_shape; [reflexivity | reflexivity | exact Hu].
Defined.

Lemma rstrip_idem s : rstrip_slash (rstrip_slash s) = rstrip_slash s.
Proof. apply rstrip_keep, rstrip_no_trailing. Qed.

Lemma not_parent_rooted D : slash :: D <> py "..".
Proof. intros H; apply (f_equal (@hd Z 0)) in H; vm_compute in H; discriminate. Qed.

(** C3 (code defect): on an archive with unrooted names, [change_directory]
    with an absolute argument ["/" + D] (not only slashes) never succeeds:
    it compares the rooted [test_dir] with the unrooted names, reports the
    directory as missing and leaves the current directory as it was. *)
Theorem absolute_cd_rejected :
  forall st ents D,
  archive st = Some ents -> unrooted (namelist ents) ->
  rstrip_slash (slash :: D) <> [] ->
  change_directory (slash :: D) st = (Ret false, emit (EvDirNotFound (slash :: D)) st).
Proof.
  intros st ents D Ha Hu Hne.
  unfold change_directory, bind, get, modify, print, ret. rewrite Ha.
  replace (str_eqb (slash :: D) [slash]) with false.
  2:{ symmetry; apply str_eqb_false. intros H; injection H as ->.
      apply Hne; reflexivity. }
  replace (str_eqb (slash :: D) (py "..")) with false
    by (symmetry; apply str_eqb_false, not_parent_rooted).
  unfold cd_test_dir. rewrite startswith_slash_head, Z.eqb_refl.
  destruct (rstrip_rooted D) as [H0 | [r' Hr']]; [contradiction|].
  rewrite Hr'.
  destruct (existsb (cd_match ((slash :: r') ++ [slash])) (namelist ents)) eqn:Hex;
    [|reflexivity].
  exfalso. apply existsb_exists in Hex as (n & Hin & Hm).
  specialize (Hu n Hin). unfold cd_match in Hm.
  rewrite rstrip_app_slash, <- Hr', rstrip_idem, Hr' in Hm.
  apply orb_true_iff in Hm as [Hm | Hm].
  - apply startswith_spec in Hm as [q ->]. cbn [app] in Hu.
    rewrite startswith_slash_head, Z.eqb_refl in Hu; discriminate.
  - apply str_eqb_eq in Hm; subst n.
    rewrite startswith_slash_head, Z.eqb_refl in Hu; discriminate.
Qed.

Lemma absolute_cd_rejected_witness :
  (archive docs_state = Some [mkEntry (py "documents/doc1.txt") (bytes_of "x")]
   /\ unrooted (namelist [mkEntry (py "documents/doc1.txt") (bytes_of "x")])
   /\ rstrip_slash (slash :: py "documents") <> [])
  /\ change_directory (slash :: py "documents") docs_state
     = (Ret false, emit (EvDirNotFound (slash :: py "documents")) docs_state).
Proof.
  assert (Hu : unrooted (namelist [mkEntry (py "documents/doc1.txt") (bytes_of "x")])).
  { intros n [<- | []]; reflexivity. }
  split; [split; [reflexivity | split; [exact Hu | discriminate]]|].
  apply (absolute_cd_rejected docs_state [mkEntry (py "documents/doc1.txt") (bytes_of "x")]);
    [reflexivity | exact Hu | discriminate].
Defined.

(** *** Listing *)





Lemma insert_sorted_perm x l : Permutation (insert_sorted x l) (x :: l).
Proof.
  induction l as [|y l IH]; simpl; [reflexivity|].
  destruct (str_leb x y); [reflexivity|].
  rewrite IH. apply perm_swap.
Qed.

Lemma py_sorted_perm l : Permutation (py_sorted l) l.
Proof.
  induction l as [|x l IH]; simpl; [reflexivity|].
  rewrite insert_sorted_perm, IH; reflexivity.
Qed.

Lemma str_in_spec x l : str_in x l = true <-> In x l.
Proof.
  unfold str_in; rewrite existsb_exists; split.
  - intros (y & Hy & E); apply str_eqb_eq in E; subst; exact Hy.
  - intros H; exists x; split; [exact H | apply str_eqb_refl].
Qed.

Lemma lf_fold T names : forall fl ds,
  NoDup ds ->
  let '(fl', ds') := fold_left (lf_step T) names (fl, ds) in
  fl' = fl ++ files_under T names /\ NoDup ds'
  /\ (forall y, In y ds' <-> In y ds \/ exists n, In n names /\ dir_of T n = Some y).
Proof.
  induction names as [|n names IH]; intros fl ds Hnd; simpl.
  - rewrite app_nil_r; split; [reflexivity|]; split; [exact Hnd|].
    intros y; split; [intros H; left; exact H | intros [H | (n & [] & _)]; exact H].
  - unfold files_under at 1; cbn [filter].
    unfold file_under at 1.
    change (skipn (Datatypes.length T) n) with (rel_of T n).
    change (startswith n T && negb (str_eqb n T)) with (under T n).
    assert (Hdo : dir_of T n = if under T n && contains_char slash (rel_of T n)
                  then Some (hd [] (split_on slash (rel_of T n))) else None)
      by reflexivity.
    destruct (under T n) eqn:Hu; cbn [andb negb] in Hdo |- *.
    + destruct (contains_char slash (rel_of T n)) eqn:Hc; cbn [negb].
      * set (fd := hd [] (split_on slash (rel_of T n))).
        assert (Hnd' : NoDup (if str_in fd ds then ds else ds ++ [fd])).
        { destruct (str_in fd ds) eqn:Hi; [exact Hnd|].
          apply NoDup_app; [exact Hnd | constructor; [intros []| constructor] |].
          intros y Hy [<- | []]. apply str_in_spec in Hy; congruence. }
        specialize (IH fl _ Hnd').
        destruct (fold_left (lf_step T) names (fl, _)) as [fl' ds'].
        destruct IH as (H1 & H2 & H3). split; [exact H1|]. split; [exact H2|].
        intros y; rewrite H3; split.
        -- intros [Hy | (m & Hm & Hd)].
           ++ destruct (str_in fd ds) eqn:Hi; [left; exact Hy|].
              apply in_app_iff in Hy as [Hy | [<- | []]]; [left; exact Hy|].
              right; exists n; split; [left; reflexivity | exact Hdo].
           ++ right; exists m; split; [right; exact Hm | exact Hd].
        -- intros [Hy | (m & [<- | Hm] & Hd)].
           ++ left; destruct (str_in fd ds); [exact Hy | apply in_app_iff; left; exact Hy].
           ++ rewrite Hdo in Hd; injection Hd as <-. left. destruct (str_in fd ds) eqn:Hi.
              ** apply str_in_spec; exact Hi.
              ** apply in_app_iff; right; left; reflexivity.
           ++ right; exists m; split; [exact Hm | exact Hd].
      * specialize (IH (fl ++ [rel_of T n]) ds Hnd).
        destruct (fold_left (lf_step T) names _) as [fl' ds'].
        destruct IH as (H1 & H2 & H3). split; [rewrite H1, <- app_assoc; reflexivity|].
        split; [exact H2|]. intros y; rewrite H3; split.
        -- intros [Hy | (m & Hm & Hd)]; [left; exact Hy|].
           right; exists m; split; [right; exact Hm | exact Hd].
        -- intros [Hy | (m & [<- | Hm] & Hd)]; [left; exact Hy | congruence |].
           right; exists m; split; [exact Hm | exact Hd].
    + specialize (IH fl ds Hnd).
      destruct (fold_left (lf_step T) names _) as [fl' ds'].
      destruct IH as (H1 & H2 & H3). split; [exact H1|]. split; [exact H2|].
      intros y; rewrite H3; split.
      * intros [Hy | (m & Hm & Hd)]; [left; exact Hy|].
        right; exists m; split; [right; exact Hm | exact Hd].
      * intros [Hy | (m & [<- | Hm] & Hd)]; [left; exact Hy | congruence |].
        right; exists m; split; [exact Hm | exact Hd].
Qed.




(** ** Further properties of the code *)

(** *** Without an archive *)

(** *** Resolving file names *)

Lemma replace_backslash_id s :
  contains_char backslash s = false -> replace_backslash s = s.
Proof.
  induction s as [|c s IH]; [reflexivity|].
  intros H. unfold contains_char in H; cbn [existsb] in H.
  apply orb_false_iff in H as [H1 H2].
  unfold replace_backslash; cbn [map]. rewrite Z.eqb_sym, H1. f_equal.
  apply IH; exact H2.
Qed.

Lemma replace_dslash_id s : has_dslash s = false -> replace_dslash s = s.
Proof.
  induction s as [|a s IH]; [reflexivity|].
  destruct s as [|b s']; [reflexivity|].
  intros H. change (has_dslash (a :: b :: s'))
    with ((Z.eqb a slash && Z.eqb b slash) || has_dslash (b :: s')) in H.
  apply orb_false_iff in H as [H1 H2].
  change (replace_dslash (a :: b :: s'))
    with (if Z.eqb a slash && Z.eqb b slash then slash :: replace_dslash s'
          else a :: replace_dslash (b :: s')).
  rewrite H1, IH by exact H2. reflexivity.
Qed.

(** An absolute name is resolved from the root: what [read_file] returns
    and prints does not depend on the current directory. *)
Theorem read_file_absolute_ignores_cwd :
  forall st d f, startswith f [slash] = true ->
  read_file f (set_cur d st) = (fst (read_file f st), set_cur d (snd (read_file f st))).
Proof.
  intros st d f Hf. destruct st as [a cur h o].
  unfold read_file, bind, get, ret, print, modify; simpl.
  unfold read_path; rewrite Hf.
  destruct a as [ents|]; [|reflexivity].
  destruct (str_in _ _); [|reflexivity].
  destruct (open_entry _ ents) as [data|]; [|reflexivity].
  destruct (utf8_decode data); reflexivity.
Qed.

Lemma read_file_absolute_ignores_cwd_witness :
  startswith (py "/readme.txt") [slash] = true
  /\ read_file (py "/readme.txt") (set_cur (py "documents") demo_state)
     = (fst (read_file (py "/readme.txt") demo_state),
        set_cur (py "documents") (snd (read_file (py "/readme.txt") demo_state))).
Proof.
  split; [reflexivity|]. apply read_file_absolute_ignores_cwd; reflexivity.
Defined.

(** At the root, a relative name without ['\'] and the same name with a
    leading ['/'] read the same result. *)
Theorem read_file_root_relative :
  forall st f, current_dir st = [slash] -> startswith f [slash] = false ->
  contains_char backslash f = false ->
  fst (read_file f st) = fst (read_file (slash :: f) st).
Proof.
  intros st f Hc Hs Hb.
  assert (Hp : read_path (current_dir st) f = read_path (current_dir st) (slash :: f)).
  { rewrite Hc. unfold read_path. rewrite Hs, startswith_slash_head, Z.eqb_refl.
    unfold path_join. rewrite Hs. simpl. rewrite replace_backslash_id by exact Hb.
    unfold lstrip_slash. cbn [dropwhile]. rewrite Z.eqb_refl.
    destruct f as [|x f]; [reflexivity|].
    rewrite startswith_slash_head in Hs. cbn [dropwhile]. rewrite Hs. reflexivity. }
  unfold read_file, bind, get, ret, print, modify.
  destruct (archive st) as [ents|]; [|reflexivity]. rewrite Hp.
  destruct (str_in _ _); [|reflexivity].
  destruct (open_entry _ ents) as [data|]; [|reflexivity].
  destruct (utf8_decode data); reflexivity.
Qed.

Lemma read_file_root_relative_witness :
  (current_dir demo_state = [slash] /\ startswith (py "readme.txt") [slash] = false
   /\ contains_char backslash (py "readme.txt") = false)
  /\ fst (read_file (py "readme.txt") demo_state)
     = fst (read_file (slash :: py "readme.txt") demo_state).
Proof.
  split; [repeat split|]. apply read_file_root_relative; reflexivity.
Defined.

(** When the resolved name contains no ['//'] (so that [read_file]'s
    [.replace('//', '/')] has nothing to do), [read_file] finds a file
    only if [file_exists] holds: otherwise it returns [None] silently. *)
Theorem read_file_needs_file_exists :
  forall st f, has_dslash (read_path (current_dir st) f) = false ->
  (file_exists st f = false -> read_file f st = (Ret None, st))
  /\ (forall t, fst (read_file f st) = Ret (Some t) -> file_exists st f = true).
Proof.
  intros st f Hd. unfold file_exists, read_file, bind, get, ret, print, modify.
  rewrite replace_dslash_id by exact Hd.
  destruct (archive st) as [ents|]; [|split; [reflexivity | discriminate]].
  destruct (str_in _ _); [|split; [reflexivity | discriminate]].
  split; [discriminate | reflexivity].
Qed.

Lemma read_file_needs_file_exists_witness :
  has_dslash (read_path (current_dir demo_state) (py "missing.txt")) = false
  /\ read_file (py "missing.txt") demo_state = (Ret None, demo_state).
Proof.
  split; [reflexivity|].
  apply (proj1 (read_file_needs_file_exists demo_state (py "missing.txt") eq_refl)).
  reflexivity.
Defined.

(** *** Listing from the root *)

Lemma lf_fold_outside T names acc :
  forallb (fun n => negb (startswith n T)) names = true ->
  fold_left (lf_step T) names acc = acc.
Proof.
  revert acc; induction names as [|n names IH]; intros [fl ds] H; [reflexivity|].
  cbn [forallb] in H. apply andb_true_iff in H as [H1 H2].
  apply negb_true_iff in H1. cbn [fold_left]. unfold lf_step at 2.
  rewrite H1. apply IH; exact H2.
Qed.

Lemma startswith_unrooted n T :
  startswith n [slash] = false -> startswith T [slash] = true -> startswith n T = false.
Proof.
  intros Hn HT. destruct (startswith n T) eqn:H; [|reflexivity].
  apply startswith_spec in H as [q ->]. apply startswith_spec in HT as [r ->].
  rewrite <- app_assoc in Hn. cbn [app] in Hn.
  rewrite startswith_slash_head, Z.eqb_refl in Hn. discriminate.
Qed.

(** On an archive whose entry names are unrooted, listing a target that
    starts with ['/'] (the root ['/'] included, which is what a bare [ls]
    lists in a fresh session) gives the empty list. *)
Theorem rooted_listing_empty :
  forall st ents dir target,
  archive st = Some ents -> unrooted (namelist ents) ->
  target = match dir with Some ((_ :: _) as d) => d | _ => current_dir st end ->
  startswith target [slash] = true ->
  list_files st dir = Some [].
Proof.
  intros st ents dir target Ha Hu Ht Hs.
  unfold list_files; rewrite Ha; cbv zeta.
  match goal with |- context [rstrip_slash ?t ++ [slash]] =>
    replace t with target by (subst target; destruct dir as [[|]|]; reflexivity) end.
  destruct target as [|x D]; [discriminate|].
  rewrite startswith_slash_head in Hs. apply Z.eqb_eq in Hs; subst x.
  match goal with |- context [fold_left (lf_step ?T) _ _] =>
    assert (HT : startswith T [slash] = true) end.
  { destruct (rstrip_rooted D) as [-> | [r' ->]].
    - destruct (str_eqb _ _); reflexivity.
    - destruct (str_eqb _ _); cbn [app]; rewrite startswith_slash_head, Z.eqb_refl;
        reflexivity. }
  rewrite lf_fold_outside; [reflexivity|].
  apply forallb_forall. intros n Hn. apply negb_true_iff.
  apply startswith_unrooted; [apply Hu; exact Hn | exact HT].
Qed.

Lemma rooted_listing_empty_witness :
  (archive demo_state = Some demo_entries /\ unrooted (namelist demo_entries)
   /\ [slash] = match (None : option pystr) with
                 Some ((_ :: _) as d) => d | _ => current_dir demo_state end
   /\ startswith [slash] [slash] = true)
  /\ list_files demo_state None = Some [].
Proof.
  assert (Hu : unrooted (namelist demo_entries)).
  { intros n Hn. simpl in Hn.
    repeat (destruct Hn as [<- | Hn]; [reflexivity|]); contradiction. }
  split; [split; [reflexivity | split; [exact Hu | split; reflexivity]]|].
  apply (rooted_listing_empty demo_state demo_entries None [slash]);
    [reflexivity | exact Hu | reflexivity | reflexivity].
Defined.

(** *** Shell commands *)

(** [tail f n] with a count that [int()] rejects, or that is zero or
    negative, prints exactly one error line and does not read the file. *)
Theorem tail_bad_count_reads_nothing :
  forall st f tok extra,
  (py_int tok = None -> cmd_tail (f :: tok :: extra) st = (Ret tt, emit EvCountNotNumber st))
  /\ (forall n, py_int tok = Some n -> n <= 0 ->
      cmd_tail (f :: tok :: extra) st = (Ret tt, emit EvCountNotPositive st)).
Proof.
  intros st f tok extra. split.
  - intros H. simpl. rewrite H. reflexivity.
  - intros n H Hn. simpl. rewrite H. replace (n <=? 0) with true by lia. reflexivity.
Qed.

Lemma tail_bad_count_reads_nothing_witness :
  py_int (py "-3") = Some (-3) /\ -3 <= 0
  /\ cmd_tail [py "readme.txt"; py "-3"] demo_state
     = (Ret tt, emit EvCountNotPositive demo_state).
Proof.
  split; [reflexivity | split; [lia|]].
  apply (proj2 (tail_bad_count_reads_nothing demo_state (py "readme.txt") (py "-3") [])
           (-3)); [reflexivity | lia].
Defined.

(** [history] prints its header and then the last [min(20, H)] of the [H]
    recorded commands, numbered with their positions in the full history;
    with no history it prints only that the history is empty. *)
Theorem history_window :
  forall st,
  (history st = [] -> cmd_history st = (Ret tt, emit EvHistEmpty st))
  /\ (history st <> [] ->
      let H := Z.of_nat (List.length (history st)) in
      let k := Z.min 20 H in
      cmd_history st
      = (Ret tt, mkSh (archive st) (current_dir st) (history st)
           (out st ++ EvHistHeader
              :: map (fun p => EvHistLine (fst p) (snd p))
                     (enumerate (H - k + 1) (skipn (Z.to_nat (H - k)) (history st)))))
      /\ List.length (skipn (Z.to_nat (H - k)) (history st)) = Z.to_nat k).
Proof.
  intros st. split.
  - intros Hh. unfold cmd_history, bind, get. rewrite Hh. reflexivity.
  - intros Hne H k.
    assert (Hstart : Z.max 0 (H - 20) = H - k) by (subst k; lia).
    split.
    + unfold cmd_history, bind at 1, get.
      destruct (history st) as [|c h] eqn:Hh; [congruence|].
      change (Z.max 0 (Z.of_nat (Datatypes.length (c :: h)) - 20)) with (Z.max 0 (H - 20)).
      rewrite Hstart.
      unfold bind, print at 1, modify. rewrite mapM_print. simpl.
      rewrite Hh, <- app_assoc. reflexivity.
    + rewrite length_skipn. fold H.
      assert (0 <= k <= H) by (subst k H; lia).
      apply Nat2Z.inj. rewrite Nat2Z.inj_sub by lia.
      rewrite !Z2Nat.id by lia. fold H. lia.
Qed.

Lemma history_window_witness :
  history (mkSh None [slash] [py "pwd"; py "ls"] []) <> []
  /\ cmd_history (mkSh None [slash] [py "pwd"; py "ls"] [])
     = (Ret tt, mkSh None [slash] [py "pwd"; py "ls"]
                  [EvHistHeader; EvHistLine 1 (py "pwd"); EvHistLine 2 (py "ls")]).
Proof.
  split; [discriminate|].
  destruct (proj2 (history_window (mkSh None [slash] [py "pwd"; py "ls"] [])))
    as [H _]; [discriminate|].
  rewrite H. reflexivity.
Defined.

Lemma filter_length_negb {A} (f : A -> bool) (l : list A) :
  (List.length (filter (fun x => negb (f x)) l) + List.length (filter f l))%nat
  = List.length l.
Proof.
  induction l as [|x l IH]; [reflexivity|]. simpl.
  destruct (f x); simpl; lia.
Qed.

(** [vfs-info] on a loaded archive whose file [os.stat] succeeds prints one
    information block whose file count (names not ending in ['/']) and
    directory count (names ending in ['/']) add up to the number of
    entries. *)
Theorem vfs_info_counts_add_up :
  forall E st ents s, archive st = Some ents -> env_stat E = Some s ->
  exists r, cmd_vfs_info E st = (Ret tt, emit (EvInfo r) st)
    /\ i_files r + i_dirs r = i_total r
    /\ i_total r = Z.of_nat (List.length ents).
Proof.
  intros E st ents s Ha Hs. unfold cmd_vfs_info, bind, get. rewrite Ha, Hs.
  eexists; split; [reflexivity|]. simpl. unfold count_true, namelist.
  rewrite <- Nat2Z.inj_add, filter_length_negb, length_map. split; reflexivity.
Qed.

Lemma vfs_info_counts_add_up_witness :
  (archive demo_state = Some demo_entries
   /\ env_stat (mkEnv (py "u") (py "demo.vfs") (Some (mkStat (py "/demo.vfs") (py "0") 1 (py "t"))))
      = Some (mkStat (py "/demo.vfs") (py "0") 1 (py "t")))
  /\ exists r,
     cmd_vfs_info (mkEnv (py "u") (py "demo.vfs") (Some (mkStat (py "/demo.vfs") (py "0") 1 (py "t"))))
       demo_state = (Ret tt, emit (EvInfo r) demo_state)
     /\ i_files r + i_dirs r = i_total r
     /\ i_total r = Z.of_nat (List.length demo_entries).
Proof.
  split; [split; reflexivity|].
  apply (vfs_info_counts_add_up _ demo_state demo_entries (mkStat (py "/demo.vfs") (py "0") 1 (py "t")));
    reflexivity.
Defined.

(** [execute_command] strips its argument first: surrounding whitespace
    changes nothing, and an empty or all-blank line does nothing at all
    (in particular it is not recorded in the history). *)
Theorem execute_command_blank_and_padding :
  forall E c st,
  execute_command E c st = execute_command E (strip c) st
  /\ (strip c = [] -> execute_command E c st = (Ret tt, st)).
Proof.
  intros E c st. split.
  - unfold execute_command at 2. rewrite strip_idem. reflexivity.
  - intros H. unfold execute_command. rewrite H. reflexivity.
Qed.

Lemma execute_command_blank_and_padding_witness :
  strip (py "   ") = []
  /\ execute_command demo_env (py "   ") demo_state = (Ret tt, demo_state).
Proof.
  split; [reflexivity|].
  apply (proj2 (execute_command_blank_and_padding demo_env (py "   ") demo_state)).
  reflexivity.
Defined.

(** The interactive loop, fed lines none of which is [exit]/[quit], returns
    normally at the end of input: it keeps the archive, appends exactly the
    non-blank stripped lines to the history, in order, and its output ends
    with the end-of-input message. *)
Theorem interactive_records_commands :
  forall E inputs st,
  forallb (fun i => negb (is_quit_verb (verb_of (strip i)))) inputs = true ->
  exists st' l, interactive_loop E inputs st = (Ret tt, st')
    /\ archive st' = archive st
    /\ history st' = history st ++ entered_commands inputs
    /\ out st' = out st ++ l ++ [EvEof].
Proof.
  intros E inputs; induction inputs as [|i rest IH]; intros st Hall.
  - exists (emit EvEof (emit (EvPrompt (env_vfs_name E) (current_dir st)) st)),
      [EvPrompt (env_vfs_name E) (current_dir st)].
    cbn. repeat split; rewrite <- ?app_assoc, ?app_nil_r; reflexivity.
  - cbn [forallb] in Hall. apply andb_true_iff in Hall as [Hi Hrest].
    apply negb_true_iff in Hi.
    set (s0 := emit (EvPrompt (env_vfs_name E) (current_dir st)) st).
    assert (Hstep : exists s1 l1,
      (match strip i with [] => ret tt | _ => execute_command E (strip i) end) s0
        = (Ret tt, s1)
      /\ archive s1 = archive st
      /\ history s1 = history st ++ entered_commands [i]
      /\ out s1 = out st ++ l1).
    { unfold entered_commands; cbn [map filter].
      destruct (strip i) as [|x r] eqn:Hs.
      - exists s0, [EvPrompt (env_vfs_name E) (current_dir st)].
        repeat split; rewrite ?app_nil_r; reflexivity.
      - rewrite <- Hs in Hi |- *.
        rewrite <- (strip_idem i) in Hi.
        destruct (execute_command_normal E (strip i) s0 Hi) as (s1 & l1 & E1 & A1 & H1 & O1).
        exists s1, (EvPrompt (env_vfs_name E) (current_dir st) :: l1).
        rewrite strip_idem, Hs in H1. rewrite Hs in E1 |- *.
        split; [exact E1|]. split; [exact A1|]. split; [exact H1|].
        rewrite O1. simpl. rewrite <- app_assoc. reflexivity. }
    destruct Hstep as (s1 & l1 & E1 & A1 & H1 & O1).
    destruct (IH s1 Hrest) as (s2 & l2 & E2 & A2 & H2 & O2).
    exists s2, (l1 ++ l2). cbn [interactive_loop].
    unfold bind at 1, get. unfold bind at 1, print at 1, modify. fold s0.
    unfold bind at 1. rewrite E1.
    split; [exact E2|]. split; [congruence|]. split.
    + rewrite H2, H1, <- app_assoc. f_equal.
      unfold entered_commands; cbn [map filter]. destruct (strip i); reflexivity.
    + rewrite O2, O1, <- !app_assoc. reflexivity.
Qed.

Lemma interactive_records_commands_witness :
  forallb (fun i => negb (is_quit_verb (verb_of (strip i))))
          [py " pwd "; py ""; py "nope"] = true
  /\ exists st' l, interactive_loop demo_env [py " pwd "; py ""; py "nope"] demo_state
                   = (Ret tt, st')
     /\ archive st' = archive demo_state
     /\ history st' = history demo_state ++ entered_commands [py " pwd "; py ""; py "nope"]
     /\ out st' = out demo_state ++ l ++ [EvEof].
Proof.
  split; [reflexivity|].
  apply interactive_records_commands; reflexivity.
Defined.

(** *** Printing files *)

Lemma split_on_aux_cons sep cur s : exists x l, split_on_aux sep cur s = x :: l.
Proof.
  revert cur; induction s as [|c s IH]; intros cur; simpl; [eauto|].
  destruct (Z.eqb c sep); eauto.
Qed.

Lemma join_split_on sep cur s : join_on sep (split_on_aux sep cur s) = rev cur ++ s.
Proof.
  revert cur; induction s as [|c s IH]; intros cur; simpl.
  - rewrite app_nil_r; reflexivity.
  - destruct (Z.eqb c sep) eqn:Hc.
    + apply Z.eqb_eq in Hc; subst c.
      destruct (split_on_aux_cons sep [] s) as (x & l & Hs).
      change (join_on sep (rev cur :: split_on_aux sep [] s))
        with (match split_on_aux sep [] s with
              | [] => rev cur
              | _ => rev cur ++ sep :: join_on sep (split_on_aux sep [] s) end).
      rewrite Hs, <- Hs, IH. reflexivity.
    + rewrite IH. simpl. rewrite <- app_assoc. reflexivity.
Qed.

(** [cat] on a readable file prints its header and then the lines of
    [content.split('\n')] numbered from 1; joining the printed lines with
    ['\n'] gives back the whole content. *)
Theorem cat_prints_whole_file :
  forall st f rest c,
  fst (read_file f st) = Ret (Some c) ->
  cmd_cat (f :: rest) st
  = (Ret tt, mkSh (archive st) (current_dir st) (history st)
       (out st ++ EvCatHeader f
          :: map (fun p => EvNumLine (fst p) (snd p)) (enumerate 1 (split_on newline c))))
  /\ join_on newline (split_on newline c) = c.
Proof.
  intros st f rest c Hr. split.
  - unfold cmd_cat, bind at 1. rewrite (read_file_some f st c Hr).
    unfold bind, print at 1, modify. rewrite mapM_print. simpl.
    rewrite <- app_assoc. reflexivity.
  - apply join_split_on.
Qed.

Lemma cat_prints_whole_file_witness :
  fst (read_file (py "readme.txt") demo_state)
    = Ret (Some (py "A" ++ [newline] ++ py "B" ++ [newline] ++ py "C"))
  /\ join_on newline (split_on newline (py "A" ++ [newline] ++ py "B" ++ [newline] ++ py "C"))
     = py "A" ++ [newline] ++ py "B" ++ [newline] ++ py "C".
Proof.
  split; [vm_compute; reflexivity|].
  apply (cat_prints_whole_file demo_state (py "readme.txt") []).
  vm_compute; reflexivity.
Defined.

Lemma split_on_length sep s : (1 <= List.length (split_on sep s))%nat.
Proof.
  unfold split_on. destruct (split_on_aux_cons sep [] s) as (x & l & ->). simpl; lia.
Qed.

(** [tail f n] with a count at least the number of lines prints, after its
    own header, exactly the numbered lines [cat f] prints after its
    header. *)
Theorem tail_long_count_is_cat :
  forall st f tok n c,
  fst (read_file f st) = Ret (Some c) -> py_int tok = Some n ->
  Z.of_nat (List.length (split_on newline c)) <= n ->
  exists body,
    cmd_tail [f; tok] st
    = (Ret tt, mkSh (archive st) (current_dir st) (history st)
                 (out st ++ EvTailHeader n f :: body))
    /\ cmd_cat [f] st
    = (Ret tt, mkSh (archive st) (current_dir st) (history st)
                 (out st ++ EvCatHeader f :: body)).
Proof.
  intros st f tok n c Hr Ht Hn.
  pose proof (split_on_length newline c) as H1.
  exists (map (fun p => EvNumLine (fst p) (snd p)) (enumerate 1 (split_on newline c))).
  split.
  - simpl cmd_tail. rewrite Ht. replace (n <=? 0) with false by lia.
    unfold tail_body, bind at 1. rewrite (read_file_some f st c Hr).
    replace (Z.max 0 (Z.of_nat (List.length (split_on newline c)) - n)) with 0 by lia.
    unfold bind, print at 1, modify. rewrite mapM_print. simpl.
    rewrite <- app_assoc. reflexivity.
  - unfold cmd_cat, bind at 1. rewrite (read_file_some f st c Hr).
    unfold bind, print at 1, modify. rewrite mapM_print. simpl.
    rewrite <- app_assoc. reflexivity.
Qed.

Lemma tail_long_count_is_cat_witness :
  (fst (read_file (py "readme.txt") demo_state)
     = Ret (Some (py "A" ++ [newline] ++ py "B" ++ [newline] ++ py "C"))
   /\ py_int ([1633; 1632]) = Some 10
   /\ Z.of_nat (List.length (split_on newline
        (py "A" ++ [newline] ++ py "B" ++ [newline] ++ py "C"))) <= 10)
  /\ exists body,
    cmd_tail [py "readme.txt"; [1633; 1632]] demo_state
    = (Ret tt, mkSh (archive demo_state) (current_dir demo_state) (history demo_state)
                 (out demo_state ++ EvTailHeader 10 (py "readme.txt") :: body))
    /\ cmd_cat [py "readme.txt"] demo_state
    = (Ret tt, mkSh (archive demo_state) (current_dir demo_state) (history demo_state)
                 (out demo_state ++ EvCatHeader (py "readme.txt") :: body)).
Proof.
  split; [split; [vm_compute; reflexivity | split; [reflexivity | vm_compute; discriminate]]|].
  apply (tail_long_count_is_cat demo_state (py "readme.txt") ([1633; 1632]) 10
           (py "A" ++ [newline] ++ py "B" ++ [newline] ++ py "C"));
    [vm_compute; reflexivity | reflexivity | vm_compute; discriminate].
Defined.

(** *** Listing items *)

Lemma contains_char_false c s : contains_char c s = false -> ~ In c s.
Proof.
  intros H Hin. unfold contains_char in H.
  assert (existsb (Z.eqb c) s = true) by (apply existsb_exists; exists c; split;
    [exact Hin | apply Z.eqb_refl]).
  congruence.
Qed.

Lemma split_on_aux_pieces sep cur s :
  ~ In sep cur -> Forall (fun x => ~ In sep x) (split_on_aux sep cur s).
Proof.
  revert cur; induction s as [|c s IH]; intros cur Hc; simpl.
  - constructor; [rewrite <- in_rev; exact Hc | constructor].
  - destruct (Z.eqb c sep) eqn:E.
    + constructor; [rewrite <- in_rev; exact Hc|]. apply IH; intros [].
    + apply IH. intros [-> | H]; [rewrite Z.eqb_refl in E; discriminate | exact (Hc H)].
Qed.

(** Every item [list_files] returns is a single name: it contains no
    ['/']. *)
Theorem listing_items_are_segments :
  forall st dir res, list_files st dir = Some res ->
  forall x, In x res -> ~ In slash x.
Proof.
  intros st dir res. unfold list_files.
  destruct (archive st) as [ents|]; [|discriminate]. cbv zeta.
  match goal with |- context [fold_left (lf_step ?T) ?names _] =>
    pose proof (lf_fold T names [] [] (NoDup_nil _)) as Hf;
    destruct (fold_left (lf_step T) names ([], [])) as [fl ds];
    set (T0 := T) in * end.
  destruct Hf as (H1 & _ & H3). intros [= <-] x Hx.
  apply (Permutation_in x (py_sorted_perm _)) in Hx.
  apply in_app_iff in Hx as [Hx | Hx].
  - apply H3 in Hx as [[] | (n & _ & Hd)].
    unfold dir_of in Hd.
    destruct (under T0 n && contains_char slash (rel_of T0 n)); [|discriminate].
    injection Hd as <-.
    pose proof (split_on_aux_pieces slash [] (rel_of T0 n) (fun H => H)) as Hp.
    unfold split_on. destruct (split_on_aux slash [] (rel_of T0 n)) as [|y l];
      [intros [] | inversion Hp; assumption].
  - rewrite H1 in Hx. simpl in Hx. unfold files_under in Hx.
    apply in_map_iff in Hx as (n & <- & Hn). apply filter_In in Hn as [_ Hn].
    unfold file_under in Hn. apply andb_true_iff in Hn as [_ Hn].
    apply negb_true_iff in Hn. apply contains_char_false; exact Hn.
Qed.

Lemma listing_items_are_segments_witness :
  list_files demo_state (Some (py "documents")) = Some [py "doc1.txt"; py "sub"]
  /\ ~ In slash (py "sub").
Proof.
  split; [vm_compute; reflexivity|].
  apply (listing_items_are_segments demo_state (Some (py "documents"))
           [py "doc1.txt"; py "sub"]); [vm_compute; reflexivity | right; left; reflexivity].
Defined.

(** *** Going up *)

Lemma rstrip_length s : (List.length (rstrip_slash s) <= List.length s)%nat.
Proof.
  destruct (rstrip_decomp s) as (p & Hp & _).
  rewrite Hp at 2. rewrite length_app. lia.
Qed.

Lemma or_root_nonempty x : or_root x <> [].
Proof. destruct x; discriminate. Qed.

(** [dirname] of a path without trailing ['/'] is the root or shorter. *)
Lemma dirname_shorter q :
  (forall r, q <> r ++ [slash]) ->
  or_root (path_dirname q) = [slash]
  \/ (List.length (or_root (path_dirname q)) < List.length q)%nat.
Proof.
  intros Hq. unfold path_dirname.
  destruct (dropwhile_split (fun c => negb (Z.eqb c slash)) (rev q))
    as [[Hd _] | (u & y & w & Hr & Hu & Hy & Hd)]; rewrite Hd; [left; reflexivity|].
  apply negb_false_iff, Z.eqb_eq in Hy; subst y.
  assert (HQ : q = rev w ++ [slash] ++ rev u).
  { rewrite <- (rev_involutive q), Hr, rev_app_distr. simpl.
    rewrite <- app_assoc. reflexivity. }
  assert (Hlq : List.length q = (List.length w + 1 + List.length u)%nat)
    by (rewrite HQ, !length_app, !length_rev; simpl; lia).
  cbn [rev]. destruct (rev w ++ [slash]) as [|z t] eqn:Hh;
    [destruct (rev w); discriminate|].
  rewrite <- Hh. cbn [andb].
  destruct (forallb (Z.eqb slash) (rev w ++ [slash])) eqn:Hall; cbn [negb].
  - right. destruct u as [|a u].
    + exfalso. apply (Hq (rev w)). rewrite HQ, app_nil_r. reflexivity.
    + rewrite Hh. simpl or_root. rewrite <- Hh, length_app, length_rev, Hlq.
      simpl; lia.
  - rewrite rstrip_app_slash.
    destruct (rstrip_slash (rev w)) as [|a r] eqn:Hs; [left; reflexivity|].
    right. simpl or_root. rewrite <- Hs.
    pose proof (rstrip_length (rev w)). rewrite length_rev in H. lia.
Qed.

Lemma parent_step st ents :
  archive st = Some ents ->
  change_directory (py "..") st
  = (Ret true, if str_eqb (current_dir st) [slash] then st
               else set_cur (or_root (path_dirname (rstrip_slash (current_dir st)))) st).
Proof.
  intros Ha. unfold change_directory, bind, get, modify, ret. rewrite Ha.
  replace (str_eqb (py "..") [slash]) with false by reflexivity.
  rewrite str_eqb_refl. destruct (str_eqb (current_dir st) [slash]); reflexivity.
Qed.

Lemma parent_at_root j st ents :
  archive st = Some ents -> current_dir st = [slash] ->
  snd (cd_seq (repeat (py "..") j) st) = st.
Proof.
  intros Ha Hc. induction j as [|j IH]; [reflexivity|].
  cbn [repeat cd_seq]. unfold bind at 1. rewrite (parent_step st ents Ha).
  rewrite Hc, str_eqb_refl. exact IH.
Qed.

(** From any current directory [P] (non-empty), [length P] successive
    [cd ..] end at the root. *)
Theorem parent_reaches_root :
  forall st ents k, archive st = Some ents -> current_dir st <> [] ->
  (List.length (current_dir st) <= k)%nat ->
  current_dir (snd (cd_seq (repeat (py "..") k) st)) = [slash].
Proof.
  intros st ents k; revert st; induction k as [|k IH]; intros st Ha Hne Hk.
  - destruct (current_dir st); [congruence | simpl in Hk; lia].
  - cbn [repeat cd_seq]. unfold bind at 1. rewrite (parent_step st ents Ha).
    destruct (str_eqb (current_dir st) [slash]) eqn:Hr.
    + apply str_eqb_eq in Hr. rewrite (parent_at_root k st ents Ha Hr). exact Hr.
    + destruct (dirname_shorter (rstrip_slash (current_dir st)) (rstrip_no_trailing _))
        as [Hroot | Hlt].
      * rewrite (parent_at_root k (set_cur (or_root (path_dirname (rstrip_slash (current_dir st)))) st)
                   ents Ha Hroot). exact Hroot.
      * apply IH; [exact Ha | apply or_root_nonempty |].
        simpl. pose proof (rstrip_length (current_dir st)). lia.
Qed.

Lemma parent_reaches_root_witness :
  (archive (set_cur (py "documents/sub") demo_state) = Some demo_entries
   /\ current_dir (set_cur (py "documents/sub") demo_state) <> []
   /\ (List.length (current_dir (set_cur (py "documents/sub") demo_state)) <= 13)%nat)
  /\ current_dir (snd (cd_seq (repeat (py "..") 13) (set_cur (py "documents/sub") demo_state)))
     = [slash].
Proof.
  split; [split; [reflexivity | split; [discriminate | simpl; lia]]|].
  apply (parent_reaches_root _ demo_entries); [reflexivity | discriminate | simpl; lia].
Defined.

(** *** Going down and back up *)

Lemma no_trailing_after x d :
  d <> [] -> ~ In slash d -> forall r, x ++ d <> r ++ [slash].
Proof.
  intros Hd Hs r H. destruct (exists_last Hd) as (d' & z & ->).
  rewrite app_assoc in H. apply app_inj_tail in H as [_ ->].
  apply Hs, in_or_app; right; left; reflexivity.
Qed.

Lemma replace_backslash_notin s : ~ In backslash s -> replace_backslash s = s.
Proof.
  intros H. apply replace_backslash_id.
  destruct (contains_char backslash s) eqn:E; [|reflexivity].
  unfold contains_char in E. apply existsb_exists in E as (y & Hy & Ey).
  apply Z.eqb_eq in Ey; subst y. contradiction.
Qed.

Lemma dropwhile_app_all f u v :
  forallb f u = true -> dropwhile f (u ++ v) = dropwhile f v.
Proof.
  induction u as [|a u IH]; [reflexivity|]. cbn [forallb].
  intros H; apply andb_true_iff in H as [H1 H2]. simpl. rewrite H1. apply IH, H2.
Qed.

Lemma no_slash_forallb d :
  ~ In slash d -> forallb (fun c => negb (Z.eqb c slash)) (rev d) = true.
Proof.
  intros H. apply forallb_forall. intros c Hc. apply in_rev in Hc.
  apply negb_true_iff, Z.eqb_neq. intros ->. contradiction.
Qed.

Lemma dirname_single d : ~ In slash d -> path_dirname d = [].
Proof.
  intros H. unfold path_dirname.
  rewrite <- (app_nil_r (rev d)), dropwhile_app_all by (apply no_slash_forallb, H).
  reflexivity.
Qed.

Lemma dirname_append P d :
  P <> [] -> (forall r, P <> r ++ [slash]) -> ~ In slash d ->
  path_dirname (P ++ slash :: d) = P.
Proof.
  intros HP Ht Hd.
  assert (Hrev : rev (P ++ slash :: d) = rev d ++ slash :: rev P)
    by (rewrite rev_app_distr; simpl; rewrite <- app_assoc; reflexivity).
  assert (Hdw : dropwhile (fun c => negb (Z.eqb c slash)) (slash :: rev P) = slash :: rev P)
    by (cbn [dropwhile]; rewrite Z.eqb_refl; reflexivity).
  assert (Hrh : rev (slash :: rev P) = P ++ [slash])
    by (simpl; rewrite rev_involutive; reflexivity).
  destruct (exists_last HP) as (P' & z & HP').
  assert (Hz : z <> slash) by (intros ->; exact (Ht P' HP')).
  assert (Hf : forallb (Z.eqb slash) (P ++ [slash]) = false).
  { apply not_true_iff_false. intros Hall. rewrite forallb_forall in Hall.
    apply Hz. symmetry. apply Z.eqb_eq, Hall. rewrite HP'.
    apply in_or_app; left; apply in_or_app; right; left; reflexivity. }
  assert (Hm : (match P ++ [slash] with [] => false | _ => true end) = true)
    by (destruct P; reflexivity).
  unfold path_dirname. rewrite Hrev.
  rewrite dropwhile_app_all by (apply no_slash_forallb, Hd).
  rewrite Hdw, Hrh, Hm, Hf. cbn [andb negb].
  rewrite rstrip_app_slash. apply rstrip_keep, Ht.
Qed.

Lemma endswith_no_trailing P :
  P <> [] -> (forall r, P <> r ++ [slash]) -> endswith P [slash] = false.
Proof.
  intros HP Ht. destruct (exists_last HP) as (P' & z & ->).
  unfold endswith. rewrite rev_app_distr. simpl rev at 1.
  cbn [app]. rewrite startswith_slash_head. apply Z.eqb_neq.
  intros <-. exact (Ht P' eq_refl).
Qed.

(** If [cd d] succeeds for a single name [d] (non-empty, without ['/'] or
    ['\'], not [..]) from a directory [P] that is the root or has no
    trailing ['/'] and no ['\'], then [cd ..] brings the current directory
    back to [P]. *)
Theorem cd_then_parent_returns :
  forall st ents d,
  archive st = Some ents -> d <> [] -> ~ In slash d -> ~ In backslash d -> d <> py ".." ->
  (current_dir st = [slash]
   \/ (current_dir st <> [] /\ (forall r, current_dir st <> r ++ [slash])
       /\ ~ In backslash (current_dir st))) ->
  fst (change_directory d st) = Ret true ->
  current_dir (snd (change_directory (py "..") (snd (change_directory d st))))
  = current_dir st.
Proof.
  intros st ents d Ha Hd Hs Hb Hp HP Hok.
  assert (Hds : startswith d [slash] = false).
  { destruct d as [|x d]; [congruence|]. rewrite startswith_slash_head.
    apply Z.eqb_neq. intros <-. apply Hs; left; reflexivity. }
  assert (Hcd : change_directory d st
                = (Ret true, set_cur (or_root (rstrip_slash (cd_test_dir (current_dir st) d))) st)).
  { revert Hok. unfold change_directory, bind, get, modify, print, ret. rewrite Ha.
    replace (str_eqb d [slash]) with false.
    2:{ symmetry; apply str_eqb_false. intros ->. apply Hs; left; reflexivity. }
    replace (str_eqb d (py "..")) with false by (symmetry; apply str_eqb_false, Hp).
    destruct (existsb _ _); [reflexivity | discriminate]. }
  set (P := current_dir st) in *.
  assert (Hnew : exists P', cd_test_dir P d = P' ++ [slash]
                  /\ P' <> [] /\ P' <> [slash] /\ (forall r, P' <> r ++ [slash])
                  /\ or_root (path_dirname (rstrip_slash P')) = P).
  { unfold cd_test_dir. rewrite Hds.
    destruct HP as [HP | (HPn & HPt & HPb)].
    - rewrite HP. change (rstrip_slash [slash]) with (@nil Z).
      unfold path_join. rewrite Hds. cbn [orb app].
      rewrite replace_backslash_notin by exact Hb.
      exists d. split; [reflexivity|]. split; [exact Hd|]. split.
      { intros ->. apply Hs; left; reflexivity. }
      assert (Hdt := no_trailing_after [] d Hd Hs). split; [exact Hdt|].
      rewrite rstrip_keep by exact Hdt. rewrite dirname_single by exact Hs. reflexivity.
    - rewrite (rstrip_keep P HPt). unfold path_join. rewrite Hds.
      rewrite (endswith_no_trailing P HPn HPt).
      assert (Hm : (match P with [] => true | _ => false end) = false)
        by (destruct P; [congruence | reflexivity]).
      rewrite Hm. cbn [orb].
      rewrite replace_backslash_notin.
      2:{ intros Hin. apply in_app_iff in Hin as [Hin | [Hin | Hin]];
          [exact (HPb Hin) | discriminate | exact (Hb Hin)]. }
      assert (Hdt : forall r, P ++ [slash] ++ d <> r ++ [slash])
        by (rewrite app_assoc; apply no_trailing_after; assumption).
      assert (HPl : (1 <= List.length P)%nat)
        by (destruct (List.length P) eqn:E; [apply length_zero_iff_nil in E; congruence | lia]).
      assert (Hdl : (1 <= List.length d)%nat)
        by (destruct (List.length d) eqn:E; [apply length_zero_iff_nil in E; congruence | lia]).
      exists (P ++ [slash] ++ d). split; [reflexivity|]. split.
      { intros H. apply (f_equal (@List.length Z)) in H.
        rewrite !length_app in H. simpl in H. lia. }
      split.
      { intros H. apply (f_equal (@List.length Z)) in H.
        rewrite !length_app in H. simpl in H. lia. }
      split; [exact Hdt|].
      rewrite rstrip_keep by exact Hdt. cbn [app]. rewrite dirname_append by assumption.
      unfold or_root; destruct P; [congruence | reflexivity]. }
  destruct Hnew as (P' & Ht & HP'n & HP'r & HP't & Hback).
  rewrite Hcd. simpl snd. rewrite Ht, rstrip_app_slash, (rstrip_keep P' HP't).
  assert (Hor : or_root P' = P') by (destruct P'; [congruence | reflexivity]).
  rewrite Hor. rewrite (parent_step (set_cur P' st) ents Ha). simpl current_dir.
  replace (str_eqb P' [slash]) with false by (symmetry; apply str_eqb_false, HP'r).
  exact Hback.
Qed.

Lemma cd_then_parent_returns_witness :
  (archive (set_cur (py "documents") demo_state) = Some demo_entries
   /\ py "sub" <> [] /\ ~ In slash (py "sub") /\ ~ In backslash (py "sub")
   /\ py "sub" <> py ".."
   /\ fst (change_directory (py "sub") (set_cur (py "documents") demo_state)) = Ret true)
  /\ current_dir (snd (change_directory (py "..")
        (snd (change_directory (py "sub") (set_cur (py "documents") demo_state)))))
     = current_dir (set_cur (py "documents") demo_state).
Proof.
  assert (Hs : ~ In slash (py "sub")) by (simpl; unfold slash; intuition lia).
  assert (Hb : ~ In backslash (py "sub")) by (simpl; unfold backslash; intuition lia).
  split.
  { split; [reflexivity|]. split; [discriminate|]. split; [exact Hs|]. split; [exact Hb|].
    split; [discriminate | vm_compute; reflexivity]. }
  apply (cd_then_parent_returns (set_cur (py "documents") demo_state) demo_entries (py "sub"));
    [reflexivity | discriminate | exact Hs | exact Hb | discriminate | |
     vm_compute; reflexivity].
  right. split; [discriminate|]. split.
  - intros r H. apply (f_equal (@rev Z)) in H. rewrite rev_app_distr in H.
    vm_compute in H. discriminate.
  - simpl; unfold backslash; intuition lia.
Defined.


(** *** UTF-8 *)

Ltac zbool :=
  repeat (first
    [ rewrite (proj2 (Z.ltb_lt _ _)) by (Z.div_mod_to_equations; lia)
    | rewrite (proj2 (Z.ltb_ge _ _)) by (Z.div_mod_to_equations; lia)
    | rewrite (proj2 (Z.leb_le _ _)) by (Z.div_mod_to_equations; lia)
    | rewrite (proj2 (Z.leb_gt _ _)) by (Z.div_mod_to_equations; lia)
    | rewrite (proj2 (Z.eqb_neq _ _)) by (Z.div_mod_to_equations; lia)
    | rewrite (proj2 (Z.eqb_eq _ _)) by (Z.div_mod_to_equations; lia) ];
    cbv beta iota; cbn [andb]).

Lemma utf8_dec_cons b0 r :
  utf8_decode_z (b0 :: r) =
      if b0 <? 128 then option_map (cons b0) (utf8_decode_z r)
      else if in_rng 194 223 b0 then
        match r with
        | b1 :: r1 =>
            if cont b1 then
              option_map (cons ((b0 - 192) * 64 + (b1 - 128))) (utf8_decode_z r1)
            else None
        | [] => None
        end
      else if in_rng 224 239 b0 then
        match r with
        | b1 :: b2 :: r2 =>
            let lo := if Z.eqb b0 224 then 160 else 128 in
            let hi := if Z.eqb b0 237 then 159 else 191 in
            if in_rng lo hi b1 && cont b2 then
              option_map
                (cons ((b0 - 224) * 4096 + (b1 - 128) * 64 + (b2 - 128)))
                (utf8_decode_z r2)
            else None
        | _ => None
        end
      else if in_rng 240 244 b0 then
        match r with
        | b1 :: b2 :: b3 :: r3 =>
            let lo := if Z.eqb b0 240 then 144 else 128 in
            let hi := if Z.eqb b0 244 then 143 else 191 in
            if in_rng lo hi b1 && cont b2 && cont b3 then
              option_map
                (cons ((b0 - 240) * 262144 + (b1 - 128) * 4096
                       + (b2 - 128) * 64 + (b3 - 128)))
                (utf8_decode_z r3)
            else None
        | _ => None
        end
      else None.
Proof. reflexivity. Qed.

Lemma utf8_cp_roundtrip c rest :
  valid_cp c = true ->
  utf8_decode_z (utf8_encode_cp c ++ rest) = option_map (cons c) (utf8_decode_z rest).
Proof.
  intros Hv. unfold valid_cp in Hv.
  apply andb_true_iff in Hv as [Hv H3]. apply andb_true_iff in Hv as [H1 H2].
  apply Z.leb_le in H1, H2. apply negb_true_iff, andb_false_iff in H3.
  assert (Hs : c < 55296 \/ 57343 < c)
    by (destruct H3 as [H3 | H3]; apply Z.leb_gt in H3; lia).
  clear H3. unfold utf8_encode_cp.
  destruct (Z.ltb_spec c 128).
  { cbn [app]. rewrite utf8_dec_cons. zbool. reflexivity. }
  destruct (Z.ltb_spec c 2048).
  { cbn [app]. rewrite utf8_dec_cons. unfold in_rng, cont. zbool.
    do 2 f_equal. Z.div_mod_to_equations; lia. }
  destruct (Z.ltb_spec c 65536).
  { cbn [app]. rewrite utf8_dec_cons. unfold in_rng, cont. zbool.
    destruct (Z.eqb_spec (224 + c / 4096) 224); destruct (Z.eqb_spec (224 + c / 4096) 237);
      zbool; do 2 f_equal; Z.div_mod_to_equations; lia. }
  { cbn [app]. rewrite utf8_dec_cons. unfold in_rng, cont. zbool.
    destruct (Z.eqb_spec (240 + c / 262144) 240); destruct (Z.eqb_spec (240 + c / 262144) 244);
      zbool; do 2 f_equal; Z.div_mod_to_equations; lia. }
Qed.

Lemma utf8_encode_roundtrip s :
  forallb valid_cp s = true -> utf8_decode_z (utf8_encode s) = Some s.
Proof.
  induction s as [|c s IH]; intros Hv; [reflexivity|].
  cbn [forallb] in Hv. apply andb_true_iff in Hv as [Hc Hs].
  unfold utf8_encode; cbn [flat_map]. fold (utf8_encode s).
  rewrite utf8_cp_roundtrip by exact Hc. rewrite IH by exact Hs. reflexivity.
Qed.


Lemma cont_not_bad b : cont b = true -> ~ utf8_bad b.
Proof.
  unfold cont, utf8_bad. intros H. apply andb_true_iff in H as [H1 H2].
  apply Z.leb_le in H1, H2. lia.
Qed.

Lemma in_rng_cont lo hi b : 128 <= lo -> hi <= 191 -> in_rng lo hi b = true -> cont b = true.
Proof.
  unfold in_rng, cont. intros Hl Hh H. apply andb_true_iff in H as [H1 H2].
  apply Z.leb_le in H1, H2. apply andb_true_iff; split; apply Z.leb_le; lia.
Qed.

Lemma in_later (b x : Z) r : In b (x :: r) -> ~ utf8_bad x -> utf8_bad b -> In b r.
Proof. intros [<- | H] Hx Hb; [contradiction | exact H]. Qed.

Lemma utf8_decode_bad_fuel n bs b :
  (List.length bs <= n)%nat -> In b bs -> utf8_bad b -> utf8_decode_z bs = None.
Proof.
  revert bs. induction n as [|n IH]; intros bs Hlen Hin Hb.
  { destruct bs; [destruct Hin | cbn in Hlen; lia]. }
  destruct bs as [|b0 r]; [destruct Hin|]. cbn [List.length] in Hlen.
  rewrite utf8_dec_cons.
  destruct (Z.ltb_spec b0 128) as [Hlt|Hge].
  { rewrite (IH r) by (try lia; auto; apply (in_later b b0); auto; unfold utf8_bad; lia).
    reflexivity. }
  destruct (in_rng 194 223 b0) eqn:E2.
  { destruct r as [|b1 r1]; [reflexivity|]. cbn [List.length] in Hlen.
    destruct (cont b1) eqn:C1; [|reflexivity].
    assert (Hb0 : ~ utf8_bad b0)
      by (unfold in_rng in E2; apply andb_true_iff in E2 as [E E'];
          apply Z.leb_le in E, E'; unfold utf8_bad; lia).
    pose proof (in_later _ _ _ Hin Hb0 Hb) as Hr.
    pose proof (in_later _ _ _ Hr (cont_not_bad _ C1) Hb) as Hr1.
    rewrite (IH r1) by (auto; lia). reflexivity. }
  destruct (in_rng 224 239 b0) eqn:E3.
  { destruct r as [|b1 [|b2 r2]]; try reflexivity. cbn [List.length] in Hlen. cbv zeta.
    destruct (in_rng _ _ b1 && cont b2) eqn:C; [|reflexivity].
    apply andb_true_iff in C as [C1 C2].
    apply in_rng_cont in C1;
      [| destruct (b0 =? 224); lia | destruct (b0 =? 237); lia].
    assert (Hb0 : ~ utf8_bad b0)
      by (unfold in_rng in E3; apply andb_true_iff in E3 as [E E'];
          apply Z.leb_le in E, E'; unfold utf8_bad; lia).
    pose proof (in_later _ _ _ Hin Hb0 Hb) as Hr.
    pose proof (in_later _ _ _ Hr (cont_not_bad _ C1) Hb) as Hr1.
    pose proof (in_later _ _ _ Hr1 (cont_not_bad _ C2) Hb) as Hr2.
    rewrite (IH r2) by (auto; lia). reflexivity. }
  destruct (in_rng 240 244 b0) eqn:E4.
  { destruct r as [|b1 [|b2 [|b3 r3]]]; try reflexivity. cbn [List.length] in Hlen. cbv zeta.
    destruct (in_rng _ _ b1 && cont b2 && cont b3) eqn:C; [|reflexivity].
    apply andb_true_iff in C as [C C3]. apply andb_true_iff in C as [C1 C2].
    apply in_rng_cont in C1;
      [| destruct (b0 =? 240); lia | destruct (b0 =? 244); lia].
    assert (Hb0 : ~ utf8_bad b0)
      by (unfold in_rng in E4; apply andb_true_iff in E4 as [E E'];
          apply Z.leb_le in E, E'; unfold utf8_bad; lia).
    pose proof (in_later _ _ _ Hin Hb0 Hb) as Hr.
    pose proof (in_later _ _ _ Hr (cont_not_bad _ C1) Hb) as Hr1.
    pose proof (in_later _ _ _ Hr1 (cont_not_bad _ C2) Hb) as Hr2.
    pose proof (in_later _ _ _ Hr2 (cont_not_bad _ C3) Hb) as Hr3.
    rewrite (IH r3) by (auto; lia). reflexivity. }
  reflexivity.
Qed.

(** Reading a file: text written as UTF-8 (as [zipfile.writestr] stores a
    [str]) is read back unchanged, and a file holding a byte that never
    occurs in UTF-8 is reported as binary. *)

(** [read_file] returns exactly the text whose UTF-8 encoding the entry
    holds, and leaves the state unchanged. *)
Theorem read_file_utf8_roundtrip f st ents data s :
  archive st = Some ents ->
  open_entry (replace_dslash (read_path (current_dir st) f)) ents = Some data ->
  map (fun b => Z.of_N (Byte.to_N b)) data = utf8_encode s ->
  forallb valid_cp s = true ->
  read_file f st = (Ret (Some s), st).
Proof.
  intros Ha Ho Hd Hv. rewrite (read_file_loaded f st ents Ha). cbv zeta.
  rewrite Ho. unfold utf8_decode. rewrite Hd, utf8_encode_roundtrip by exact Hv.
  reflexivity.
Qed.

(** [read_file] on an entry containing a byte C0, C1 or F5..FF returns
    [None] and prints the binary-file message with the name as given. *)
Theorem read_file_invalid_byte_binary f st ents data b :
  archive st = Some ents ->
  open_entry (replace_dslash (read_path (current_dir st) f)) ents = Some data ->
  In b data ->
  (Byte.to_N b = 192 \/ Byte.to_N b = 193 \/ 245 <= Byte.to_N b)%N ->
  read_file f st = (Ret None, emit (EvBinaryFile f) st).
Proof.
  intros Ha Ho Hin Hb. rewrite (read_file_loaded f st ents Ha). cbv zeta.
  rewrite Ho. unfold utf8_decode.
  rewrite (utf8_decode_bad_fuel (List.length (map (fun b => Z.of_N (Byte.to_N b)) data)) _
             (Z.of_N (Byte.to_N b))).
  - reflexivity.
  - lia.
  - apply in_map_iff. exists b. split; [reflexivity | exact Hin].
  - unfold utf8_bad. lia.
Qed.


Lemma read_file_utf8_roundtrip_witness :
  read_file (py "d.txt") cyr_state = (Ret (Some [1044; 10]), cyr_state).
Proof.
  apply (read_file_utf8_roundtrip (py "d.txt") cyr_state
           [mkEntry (py "d.txt") [Byte.xd0; Byte.x94; Byte.x0a]]
           [Byte.xd0; Byte.x94; Byte.x0a] [1044; 10]);
    vm_compute; reflexivity.
Defined.

Lemma read_file_invalid_byte_binary_witness :
  read_file (py "image.bin") demo_state = (Ret None, emit (EvBinaryFile (py "image.bin")) demo_state).
Proof.
  apply (read_file_invalid_byte_binary (py "image.bin") demo_state demo_entries
           [Byte.xff; Byte.xfe] Byte.xff).
  - reflexivity.
  - vm_compute. reflexivity.
  - left. reflexivity.
  - right. right. vm_compute. discriminate.
Defined.

(** *** Entering a plain file *)

Lemma cd_test_dir_root_plain f :
  f <> [] -> contains_char slash f = false -> contains_char backslash f = false ->
  cd_test_dir [slash] f = f ++ [slash].
Proof.
  intros Hn Hs Hb. unfold cd_test_dir.
  destruct f as [|x r]; [congruence|].
  rewrite startswith_slash_head.
  assert (Hx : Z.eqb slash x = false).
  { apply Z.eqb_neq. intros <-. apply (contains_char_false slash (slash :: r) Hs). left; reflexivity. }
  rewrite Hx. change (rstrip_slash [slash]) with (@nil Z).
  unfold path_join. rewrite startswith_slash_head, Hx. cbn [orb app].
  rewrite replace_backslash_id by exact Hb. reflexivity.
Qed.

Lemma cd_match_found test_dir names :
  str_in (rstrip_slash test_dir) names = true ->
  existsb (cd_match test_dir) names = true.
Proof.
  intros H. apply str_in_spec in H. apply existsb_exists.
  exists (rstrip_slash test_dir). split; [exact H|].
  unfold cd_match. rewrite str_eqb_refl. apply orb_true_r.
Qed.

(** C6 (code bug): when no entry name starts with [test_dir] (so the target
    is neither a proper prefix of an entry followed by ['/'] nor a directory
    marker) but an entry is named [test_dir] without its trailing ['/'], a
    plain file, [change_directory] still succeeds and moves the current
    directory there, through the arm [name == test_dir.rstrip('/')]. *)
Theorem cd_accepts_plain_file :
  forall st ents nd,
  archive st = Some ents -> str_eqb nd [slash] = false -> str_eqb nd (py "..") = false ->
  let test_dir := cd_test_dir (current_dir st) nd in
  forallb (fun n => negb (startswith n test_dir)) (namelist ents) = true ->
  str_in (rstrip_slash test_dir) (namelist ents) = true ->
  change_directory nd st = (Ret true, set_cur (or_root (rstrip_slash test_dir)) st).
Proof.
  intros st ents nd Ha H1 H2 test_dir _ Hf.
  unfold change_directory, bind, get, modify, print, ret. rewrite Ha, H1, H2.
  fold test_dir. rewrite (cd_match_found test_dir (namelist ents) Hf). reflexivity.
Qed.

Lemma cd_accepts_plain_file_witness :
  (str_eqb (py "readme.txt") [slash] = false /\ str_eqb (py "readme.txt") (py "..") = false
   /\ forallb (fun n => negb (startswith n (cd_test_dir [slash] (py "readme.txt"))))
        (namelist demo_entries) = true
   /\ str_in (rstrip_slash (cd_test_dir [slash] (py "readme.txt"))) (namelist demo_entries) = true)
  /\ change_directory (py "readme.txt") demo_state
     = (Ret true, set_cur (or_root (rstrip_slash (cd_test_dir [slash] (py "readme.txt")))) demo_state).
Proof.
  split; [repeat split; vm_compute; reflexivity|].
  apply (cd_accepts_plain_file demo_state demo_entries (py "readme.txt"));
    vm_compute; reflexivity.
Defined.

(** C2 (code bug): from ['/'], [cd f] for a file [f] at the top of the
    archive (a plain name, no entry under [f + '/']) succeeds, and the
    current directory becomes [f]: it does not start with ['/'], and no
    entry name starts with [f + '/'] or equals that marker. *)
Theorem cd_into_file_breaks_invariant :
  forall st ents f,
  archive st = Some ents -> current_dir st = [slash] ->
  str_in f (namelist ents) = true -> f <> [] ->
  contains_char slash f = false -> contains_char backslash f = false ->
  str_eqb f (py "..") = false ->
  forallb (fun n => negb (startswith n (f ++ [slash]))) (namelist ents) = true ->
  let P := current_dir (snd (cd_seq [f] st)) in
  P = f /\ hd 0 P <> slash
  /\ (forall n, In n (namelist ents) -> startswith n (P ++ [slash]) = false).
Proof.
  intros st ents f Ha Hc Hin Hn Hs Hb Hd Hall P.
  assert (Hcd : change_directory f st = (Ret true, set_cur f st)).
  { assert (H1 : str_eqb f [slash] = false).
    { apply str_eqb_false. intros ->. discriminate Hs. }
    assert (Ht : cd_test_dir (current_dir st) f = f ++ [slash])
      by (rewrite Hc; apply cd_test_dir_root_plain; assumption).
    assert (Hr : rstrip_slash (f ++ [slash]) = f).
    { rewrite rstrip_app_slash. apply rstrip_keep. intros r Hr.
      apply (contains_char_false slash f Hs). rewrite Hr. apply in_or_app; right; left; reflexivity. }
    assert (Hf : or_root f = f) by (destruct f; [congruence | reflexivity]).
    unfold change_directory, bind, get, modify, print, ret. rewrite Ha, H1, Hd.
    rewrite Ht. rewrite (cd_match_found (f ++ [slash]) (namelist ents)) by (rewrite Hr; exact Hin).
    rewrite Hr, Hf. reflexivity. }
  assert (HP : P = f).
  { unfold P. cbn [cd_seq]. unfold bind at 1. rewrite Hcd. reflexivity. }
  split; [exact HP|]. split.
  - rewrite HP. destruct f as [|x r]; [congruence|]. cbn [hd]. intros ->.
    apply (contains_char_false slash (slash :: r) Hs). left; reflexivity.
  - intros n Hn'. rewrite HP. rewrite forallb_forall in Hall.
    apply negb_true_iff, Hall, Hn'.
Qed.

Lemma cd_into_file_breaks_invariant_witness :
  let P := current_dir (snd (cd_seq [py "readme.txt"] demo_state)) in
  P = py "readme.txt" /\ hd 0 P <> slash
  /\ (forall n, In n (namelist demo_entries) -> startswith n (P ++ [slash]) = false).
Proof.
  apply (cd_into_file_breaks_invariant demo_state demo_entries (py "readme.txt"));
    [reflexivity | reflexivity | vm_compute; reflexivity | discriminate
    | vm_compute; reflexivity | vm_compute; reflexivity | vm_compute; reflexivity
    | vm_compute; reflexivity].
Defined.
